(** * harmony-tools: subprocess execution and instrumentation layer

    A shallow embedding of the parts of [harmony_tools] that carry
    contracts: the output truncator and the executable resolver of
    [hdc_runner.py] / [hvigor_runner.py], the two [run] methods, the
    [command_line] property together with [shlex.split], and the
    [_safe_tool] wrapper of [service_bootstrap.py]. *)

From Stdlib Require Import Strings.String Strings.Ascii Strings.Byte DecimalString.
From Stdlib Require Import List ZArith NArith Bool Lia.
From Stdlib Require Import Floats.SpecFloat.
Import ListNotations.

Open Scope string_scope.
Open Scope list_scope.
Open Scope Z_scope.

#[local] Set Warnings "-register-all".

(** ** Python values used by the code *)

Module Py.

(** A Python [str] is a sequence of Unicode code points. *)
Definition char := N.
Definition str := list char.

(** ASCII literals of the source text. *)
Definition lit (s : string) : str :=
  map N_of_ascii (list_ascii_of_string s).

Definition LF : char := 10%N.
Definition CR : char := 13%N.

Definition eqc (a b : char) : bool := N.eqb a b.

Fixpoint char_in (c : char) (s : str) : bool :=
  match s with
  | [] => false
  | d :: s' => eqc c d || char_in c s'
  end.

(** The line boundaries of [str.splitlines]: LF, VT, FF, CR, FS, GS, RS,
    NEL, LINE SEPARATOR and PARAGRAPH SEPARATOR. *)
Definition linebreaks : str :=
  [10; 11; 12; 13; 28; 29; 30; 133; 8232; 8233]%N.

Definition is_linebreak (c : char) : bool := char_in c linebreaks.

(** [str.splitlines()] (keepends false): a line ends at a line boundary,
    CR LF counts as one boundary, and a final boundary opens no new line. *)
Fixpoint splitlines (s : str) : list str :=
  match s with
  | [] => []
  | c :: s' =>
      if is_linebreak c then
        [] :: (if eqc c CR
               then match s' with
                    | d :: s'' => if eqc d LF then splitlines s'' else splitlines s'
                    | [] => splitlines s'
                    end
               else splitlines s')
      else
        match splitlines s' with
        | [] => [[c]]
        | l :: ls => (c :: l) :: ls
        end
  end.

(** [sep.join(parts)] *)
Fixpoint join (sep : str) (parts : list str) : str :=
  match parts with
  | [] => []
  | p :: rest =>
      match rest with
      | [] => p
      | _ :: _ => p ++ sep ++ join sep rest
      end
  end.

(** [str(n)] for an [int]: decimal digits, a leading minus sign when
    negative. *)
Definition str_of_int (n : Z) : str :=
  lit (NilZero.string_of_int (Z.to_int n)).

(** [l[start:]] with Python's treatment of negative and out-of-range
    bounds. *)
Definition slice_from {A : Type} (start : Z) (l : list A) : list A :=
  let n := Z.of_nat (length l) in
  let i := if start <? 0 then Z.max (start + n) 0 else Z.min start n in
  skipn (Z.to_nat i) l.

(** [s.replace(old, new)] for a one-character [old]. *)
Definition replace_char (old : char) (new : str) (s : str) : str :=
  flat_map (fun c => if eqc c old then new else [c]) s.

(** [str.isspace] for one character, as used by [str.strip()]. *)
Definition is_space (c : char) : bool :=
  char_in c [9; 10; 11; 12; 13; 28; 29; 30; 31; 32; 133; 160; 5760;
             8232; 8233; 8239; 8287; 12288]%N
  || ((8192 <=? c)%N && (c <=? 8202)%N).

Fixpoint lstrip (s : str) : str :=
  match s with
  | c :: s' => if is_space c then lstrip s' else s
  | [] => []
  end.

(** [s.strip()] *)
Definition strip (s : str) : str := rev (lstrip (rev (lstrip s))).

(** [s[:n]] for a non-negative [n]. *)
Definition prefix (n : nat) (s : str) : str := firstn n s.

(** [len(s)] *)
Definition len {A : Type} (l : list A) : Z := Z.of_nat (length l).

(** A [float]: an IEEE 754 binary64 value. *)
Definition float := spec_float.

(** [f == 0.0] *)
Definition is_zero (f : float) : bool :=
  match f with
  | S754_zero _ => true
  | _ => false
  end.

(** The values that cross the tool boundary (JSON-like), with dictionaries
    as key-ordered association lists. *)
Inductive pyval :=
| VNone
| VBool (b : bool)
| VInt (n : Z)
| VFloat (f : float)
| VStr (s : str)
| VList (l : list pyval)
| VDict (d : list (str * pyval)).

Fixpoint str_eqb (a b : str) : bool :=
  match a, b with
  | [], [] => true
  | x :: a', y :: b' => eqc x y && str_eqb a' b'
  | _, _ => false
  end.

(** [key in d] and [d[key]] *)
Fixpoint dict_get {V : Type} (d : list (str * V)) (key : str) : option V :=
  match d with
  | [] => None
  | (k, v) :: d' => if str_eqb k key then Some v else dict_get d' key
  end.

Definition dict_has {V : Type} (d : list (str * V)) (key : str) : bool :=
  match dict_get d key with Some _ => true | None => false end.

(** [d[key] = v], keeping the position of an existing key. *)
Fixpoint dict_set {V : Type} (d : list (str * V)) (key : str) (v : V)
  : list (str * V) :=
  match d with
  | [] => [(key, v)]
  | (k, w) :: d' =>
      if str_eqb k key then (k, v) :: d' else (k, w) :: dict_set d' key v
  end.

(** [d.update(e)] *)
Definition dict_update {V : Type} (d e : list (str * V)) : list (str * V) :=
  fold_left (fun acc kv => dict_set acc (fst kv) (snd kv)) e d.

(** Truth value of an object in a condition. *)
Definition truthy (v : pyval) : bool :=
  match v with
  | VNone => false
  | VBool b => b
  | VInt n => negb (n =? 0)
  | VFloat f => negb (is_zero f)
  | VStr s => match s with [] => false | _ => true end
  | VList l => match l with [] => false | _ => true end
  | VDict d => match d with [] => false | _ => true end
  end.

(** [v == 0] *)
Definition eq_zero (v : pyval) : bool :=
  match v with
  | VInt n => n =? 0
  | VBool b => negb b
  | VFloat f => is_zero f
  | _ => false
  end.

(** A [bytes] object, and an object that is a [str] or a [bytes]. *)
Definition bytes := list byte.

Inductive AnyStr :=
| Str (s : str)
| Bytes (b : bytes).

(** [bytes.splitlines()]: only LF, CR and CR LF end a line. *)
Definition is_bytes_linebreak (b : byte) : bool :=
  Byte.eqb b x0a || Byte.eqb b x0d.

Fixpoint bytes_splitlines (s : bytes) : list bytes :=
  match s with
  | [] => []
  | c :: s' =>
      if is_bytes_linebreak c then
        [] :: (if Byte.eqb c x0d
               then match s' with
                    | d :: s'' =>
                        if Byte.eqb d x0a then bytes_splitlines s''
                        else bytes_splitlines s'
                    | [] => bytes_splitlines s'
                    end
               else bytes_splitlines s')
      else
        match bytes_splitlines s' with
        | [] => [[c]]
        | l :: ls => (c :: l) :: ls
        end
  end.

(** *** Exceptions

    The classes the code names, their place in the built-in hierarchy,
    and classes defined by a program on top of them. *)
Inductive cls :=
| BaseException
| Exception
| SystemExit
| KeyboardInterrupt
| GeneratorExit
| OSError
| FileNotFoundError
| RuntimeError
| ValueError
| TypeError
| SubprocessError
| TimeoutExpired
| UserClass (name : str) (base : cls).

(** [EnvironmentError] is another name of [OSError]. *)
Definition EnvironmentError : cls := OSError.

(** The class itself followed by its bases up to [BaseException]. *)
Fixpoint mro (c : cls) : list cls :=
  c :: match c with
       | BaseException => []
       | Exception | SystemExit | KeyboardInterrupt | GeneratorExit =>
           [BaseException]
       | OSError | RuntimeError | ValueError | TypeError | SubprocessError =>
           [Exception; BaseException]
       | FileNotFoundError => [OSError; Exception; BaseException]
       | TimeoutExpired => [SubprocessError; Exception; BaseException]
       | UserClass _ base => mro base
       end.

Fixpoint cls_eqb (a b : cls) : bool :=
  match a, b with
  | BaseException, BaseException | Exception, Exception
  | SystemExit, SystemExit | KeyboardInterrupt, KeyboardInterrupt
  | GeneratorExit, GeneratorExit | OSError, OSError
  | FileNotFoundError, FileNotFoundError | RuntimeError, RuntimeError
  | ValueError, ValueError | TypeError, TypeError
  | SubprocessError, SubprocessError | TimeoutExpired, TimeoutExpired => true
  | UserClass n b1, UserClass m b2 => str_eqb n m && cls_eqb b1 b2
  | _, _ => false
  end.

Definition issubclass (c d : cls) : bool := existsb (cls_eqb d) (mro c).

(** [c.__name__] *)
Definition cls_name (c : cls) : str :=
  match c with
  | BaseException => lit "BaseException"
  | Exception => lit "Exception"
  | SystemExit => lit "SystemExit"
  | KeyboardInterrupt => lit "KeyboardInterrupt"
  | GeneratorExit => lit "GeneratorExit"
  | OSError => lit "OSError"
  | FileNotFoundError => lit "FileNotFoundError"
  | RuntimeError => lit "RuntimeError"
  | ValueError => lit "ValueError"
  | TypeError => lit "TypeError"
  | SubprocessError => lit "SubprocessError"
  | TimeoutExpired => lit "TimeoutExpired"
  | UserClass name _ => name
  end.

(** An exception object: its class, [str(exc)], the exception it was
    raised [from], and the [stdout] / [stderr] attributes that
    [subprocess.TimeoutExpired] carries.  The library documents them as
    the captured output, or [None] when none was observed; captured
    output is [bytes] whatever [text=True] says, except on Windows,
    where [subprocess.run] replaces both by the decoded text. *)
Inductive exception :=
| Exc (class : cls) (message : str) (cause : option exception)
      (out err : option AnyStr).

Definition exc_class (e : exception) : cls :=
  match e with Exc c _ _ _ _ => c end.
Definition exc_str (e : exception) : str :=
  match e with Exc _ m _ _ _ => m end.
Definition exc_cause (e : exception) : option exception :=
  match e with Exc _ _ c _ _ => c end.
Definition exc_stdout (e : exception) : option AnyStr :=
  match e with Exc _ _ _ o _ => o end.
Definition exc_stderr (e : exception) : option AnyStr :=
  match e with Exc _ _ _ _ r => r end.

Definition isinstance (e : exception) (c : cls) : bool :=
  issubclass (exc_class e) c.

(** [C(message)] and [raise C(message) from cause] *)
Definition new_exc (c : cls) (message : str) : exception :=
  Exc c message None None None.
Definition new_exc_from (c : cls) (message : str) (cause : exception)
  : exception :=
  Exc c message (Some cause) None None.

(** The outcome of a call: a value, or an exception leaving it. *)
Inductive result (A : Type) :=
| Return (a : A)
| Raise (e : exception).
Arguments Return {A} a.
Arguments Raise {A} e.

(** [x or default] for an optional string. *)
Definition or_str (x : option str) (default : str) : str :=
  match x with
  | Some (c :: s) => c :: s
  | Some [] | None => default
  end.

(** [x or default] where [x] is [None], a [str] or a [bytes]. *)
Definition or_default (x : option AnyStr) (default : str) : AnyStr :=
  match x with
  | Some (Str (c :: s)) => Str (c :: s)
  | Some (Bytes (b :: bs)) => Bytes (b :: bs)
  | Some (Str []) | Some (Bytes []) | None => Str default
  end.

(** *** Logging: the calls made on the [harmony_tools] logger *)
Inductive level := DEBUG | INFO | WARNING | ERROR | EXCEPTION.

Record log_record := Log {
  log_level : level;
  log_msg : string;
  log_args : list pyval
}.

End Py.

Import Py.

(** ** The standard library's [shlex], as [split_arguments] and
    [command_line] use it *)

Module Shlex.

Definition safe_chars : str :=
  lit "abcdefghijklmnopqrstuvwxyzABCDEFGHIJKLMNOPQRSTUVWXYZ0123456789_@%+=:,./-".

(** [_find_unsafe(s) is not None]: some character is outside
    [[\w@%+=:,./-]] (ASCII). *)
Definition _find_unsafe (s : str) : bool :=
  existsb (fun c => negb (char_in c safe_chars)) s.

Definition SQUOTE : char := 39%N.
Definition DQUOTE : char := 34%N.

(** [shlex.quote] *)
Definition quote (s : str) : str :=
  match s with
  | [] => [SQUOTE; SQUOTE]
  | _ :: _ =>
      if negb (_find_unsafe s) then s
      else [SQUOTE]
             ++ replace_char SQUOTE [SQUOTE; DQUOTE; SQUOTE; DQUOTE; SQUOTE] s
             ++ [SQUOTE]
  end.

(** The attributes of a [shlex] instance built by [shlex.split]:
    [posix] is true, [whitespace_split] is true, [commenters] and
    [punctuation_chars] are empty. *)
Definition wordchars : str :=
  lit "abcdfeghijklmnopqrstuvwxyzABCDEFGHIJKLMNOPQRSTUVWXYZ0123456789_"
    ++ map N.of_nat (seq 223 24) ++ map N.of_nat (seq 248 8)
    ++ map N.of_nat (seq 192 23) ++ map N.of_nat (seq 216 7).
Definition whitespace : str := [32; 9; 13; 10]%N.
Definition quotes : str := [SQUOTE; DQUOTE].
Definition escape : str := [92%N].
Definition escapedquotes : str := [DQUOTE].

(** [self.state]: [None] past the end of input, [' '] between tokens,
    ['a'] inside a word, or the quote or escape character being
    processed.  (State ['c'] is entered only from a punctuation
    character, and there are none.) *)
Inductive lex_state :=
| AtEOF
| InWhitespace
| InWord
| InQuote (q : char)
| InEscape (e : char).

Record lexer := Lexer {
  state : lex_state;
  instream : str
}.

(** The end of [read_token]: the token, or [None] when nothing was read
    and nothing was quoted. *)
Definition emit (quoted : bool) (token : str) : option str :=
  match token with
  | [] => if quoted then Some [] else None
  | _ :: _ => Some token
  end.

Definition nonempty (token : str) : bool :=
  match token with [] => false | _ :: _ => true end.

(** The loop of [shlex.read_token]: one iteration per character read. *)
Fixpoint read_token_loop (st : lex_state) (quoted : bool)
    (escapedstate : lex_state) (token : str) (input : str)
  : result (option str * lexer) :=
  match input with
  | [] =>
      (* instream.read(1) returned '' *)
      match st with
      | AtEOF => Return (emit quoted [], Lexer AtEOF [])
      | InWhitespace | InWord => Return (emit quoted token, Lexer AtEOF [])
      | InQuote _ => Raise (new_exc ValueError (lit "No closing quotation"))
      | InEscape _ => Raise (new_exc ValueError (lit "No escaped character"))
      end
  | nextchar :: rest =>
      match st with
      | AtEOF => Return (emit quoted [], Lexer AtEOF rest)
      | InWhitespace =>
          if char_in nextchar whitespace then
            if nonempty token || quoted
            then Return (emit quoted token, Lexer InWhitespace rest)
            else read_token_loop InWhitespace quoted escapedstate token rest
          else if char_in nextchar escape then
            read_token_loop (InEscape nextchar) quoted InWord token rest
          else if char_in nextchar wordchars then
            read_token_loop InWord quoted escapedstate [nextchar] rest
          else if char_in nextchar quotes then
            read_token_loop (InQuote nextchar) quoted escapedstate token rest
          else (* whitespace_split *)
            read_token_loop InWord quoted escapedstate [nextchar] rest
      | InQuote q =>
          if eqc nextchar q then
            read_token_loop InWord true escapedstate token rest
          else if char_in nextchar escape && char_in q escapedquotes then
            read_token_loop (InEscape nextchar) true (InQuote q) token rest
          else
            read_token_loop (InQuote q) true escapedstate
              (token ++ [nextchar]) rest
      | InEscape e =>
          let token :=
            match escapedstate with
            | InQuote q =>
                if negb (eqc nextchar e) && negb (eqc nextchar q)
                then token ++ [e] else token
            | _ => token
            end in
          read_token_loop escapedstate quoted escapedstate
            (token ++ [nextchar]) rest
      | InWord =>
          if char_in nextchar whitespace then
            if nonempty token || quoted
            then Return (emit quoted token, Lexer InWhitespace rest)
            else read_token_loop InWhitespace quoted escapedstate token rest
          else if char_in nextchar quotes then
            read_token_loop (InQuote nextchar) quoted escapedstate token rest
          else if char_in nextchar escape then
            read_token_loop (InEscape nextchar) quoted InWord token rest
          else (* wordchars, quotes, or whitespace_split *)
            read_token_loop InWord quoted escapedstate
              (token ++ [nextchar]) rest
      end
  end.

(** [shlex.read_token]: [quoted] starts false, [escapedstate] is [' '],
    [self.token] is empty between calls. *)
Definition read_token (lex : lexer) : result (option str * lexer) :=
  read_token_loop (state lex) false InWhitespace [] (instream lex).

(** [list(lex)]: [__next__] until [get_token] returns [self.eof], which
    is [None].  Every token consumes input, so [fuel] above the input's
    length is never exhausted; [None] marks exhaustion. *)
Fixpoint tokens (fuel : nat) (lex : lexer) : option (result (list str)) :=
  match fuel with
  | O => None
  | S fuel' =>
      match read_token lex with
      | Raise e => Some (Raise e)
      | Return (None, _) => Some (Return [])
      | Return (Some tok, lex') =>
          match tokens fuel' lex' with
          | Some (Return toks) => Some (Return (tok :: toks))
          | other => other
          end
      end
  end.

(** [shlex.split(s)] (comments false, posix true) *)
Definition split (s : str) : option (result (list str)) :=
  tokens (S (length s)) (Lexer InWhitespace s).

End Shlex.

(** ** The operating system, as the runners see it *)

Module OS.

Inductive file_kind := RegularFile | Directory | OtherKind.

Record CompletedProcess := Completed {
  cp_stdout : str;
  cp_stderr : str;
  cp_returncode : Z
}.

Definition environment := list (str * str).

(** What the code asks of [os], [os.path], [subprocess] and [time]:
    [expandvars] and [expanduser] return the expanded path or raise (on
    POSIX [expanduser] raises [ValueError] for a null byte in the user
    name after [~], and both raise [UnicodeEncodeError] for a lone
    surrogate); [stat] answers [None] for a path that does not exist;
    [subprocess_run command cwd timeout env] is
    [subprocess.run(command, cwd=cwd, capture_output=True, text=True,
    timeout=timeout, check=False, env=env)]. *)
Record os := {
  environ : environment;
  expandvars : str -> result str;
  expanduser : str -> result str;
  path_join : str -> list str -> str;
  stat : str -> option file_kind;
  subprocess_run :
    list str -> option str -> option float -> environment ->
    result CompletedProcess;
  elapsed_ms : Z
}.

Definition getenv (w : os) (name : str) : option str :=
  dict_get (environ w) name.

(** [os.path.expanduser(os.path.expandvars(path))] *)
Definition expand (w : os) (path : str) : result str :=
  match expandvars w path with
  | Raise e => Raise e
  | Return expanded => expanduser w expanded
  end.

Definition path_exists (w : os) (p : str) : bool :=
  match stat w p with Some _ => true | None => false end.
Definition path_isfile (w : os) (p : str) : bool :=
  match stat w p with Some RegularFile => true | _ => false end.
Definition path_isdir (w : os) (p : str) : bool :=
  match stat w p with Some Directory => true | _ => false end.

(** [posixpath.join] *)
Definition posix_join (a : str) (p : list str) : str :=
  fold_left
    (fun path b =>
       match b with
       | 47%N :: _ => b
       | _ =>
           match rev path with
           | [] | 47%N :: _ => path ++ b
           | _ => path ++ [47%N] ++ b
           end
       end)
    p a.

(** [timeout or 0], as passed to the logger. *)
Definition timeout_or_0 (timeout : option float) : pyval :=
  match timeout with
  | Some f => if truthy (VFloat f) then VFloat f else VInt 0
  | None => VInt 0
  end.

(** [os.environ.copy()] updated with [env] when [env] is non-empty. *)
Definition final_env (w : os) (env : option environment) : environment :=
  match env with
  | Some (kv :: e) => dict_update (environ w) (kv :: e)
  | Some [] | None => environ w
  end.

End OS.

Import OS.

(** ** The pattern [r'\x1b\[[0-9;]*m'] of [_strip_ansi_codes] *)

Module AnsiPattern.

Definition ESC : char := 27%N.

(** A character of the class [[0-9;]]. *)
Definition is_param (c : char) : bool :=
  ((48 <=? c)%N && (c <=? 57)%N) || eqc c 59%N.

(** The text left after the longest run of [[0-9;]] at its start. *)
Fixpoint skip_params (s : str) : str :=
  match s with
  | c :: s' => if is_param c then skip_params s' else s
  | [] => []
  end.

(** [pattern.match(s)]: the text after the match when the pattern matches
    at the start of [s].  The run [[0-9;]*] is greedy and cannot hold the
    final [m], so giving characters back never produces a match. *)
Definition match_end (s : str) : option str :=
  match s with
  | e :: b :: s' =>
      if eqc e ESC && eqc b 91%N then
        match skip_params s' with
        | m :: rest => if eqc m 109%N then Some rest else None
        | [] => None
        end
      else None
  | _ => None
  end.

(** [pattern.sub('', text)]: the leftmost matches, one after the other,
    are dropped.  Every step consumes a character, so [fuel] of the
    length of [text] is enough. *)
Fixpoint sub_empty (fuel : nat) (text : str) : str :=
  match fuel with
  | O => []
  | S fuel' =>
      match text with
      | [] => []
      | c :: text' =>
          match match_end text with
          | Some rest => sub_empty fuel' rest
          | None => c :: sub_empty fuel' text'
          end
      end
  end.

End AnsiPattern.

(** ** hdc_runner.py *)

Module HdcRunner.

Record HdcResult := mkHdcResult {
  command : list str;
  stdout : AnyStr;
  stderr : AnyStr;
  returncode : Z;
  timed_out : bool
}.

(** [HdcResult.command_line] *)
Definition command_line (r : HdcResult) : str :=
  join (lit " ") (map Shlex.quote (command r)).

(** The loop [for candidate in candidates: if os.path.isfile(candidate):
    return candidate]. *)
Fixpoint first_file (w : os) (candidates : list str) : option str :=
  match candidates with
  | [] => None
  | candidate :: rest =>
      if path_isfile w candidate then Some candidate else first_file w rest
  end.

Definition candidates (w : os) (expanded_path : str) : list str :=
  [ path_join w expanded_path [lit "hdc"];
    path_join w expanded_path [lit "hdc.exe"];
    path_join w expanded_path [lit "bin"; lit "hdc"];
    path_join w expanded_path [lit "bin"; lit "hdc.exe"] ].

(** [HdcRunner._resolve_executable] *)
Definition _resolve_executable (w : os) (path : str) : result str :=
  match expand w path with
  | Raise e => Raise e
  | Return expanded_path =>
      Return
        (if negb (path_exists w expanded_path) then expanded_path
         else if path_isfile w expanded_path then expanded_path
         else
           match (if path_isdir w expanded_path
                  then first_file w (candidates w expanded_path)
                  else None) with
           | Some candidate => candidate
           | None => expanded_path
           end)
  end.

(** [HdcRunner.__init__]: the value of [self._executable]. *)
Definition __init__ (w : os) (executable : option str) : result str :=
  _resolve_executable w
    (or_str executable
       (match getenv w (lit "HDC_PATH") with
        | Some v => v
        | None => lit "hdc"
        end)).

(** [HdcRunner._truncate_output] *)
Definition _truncate_output (output : str) (max_lines : Z) : str :=
  match output with
  | [] => output
  | _ :: _ =>
      let lines := splitlines output in
      let total_lines := len lines in
      if total_lines <=? max_lines then output
      else
        let truncated_lines := slice_from (- max_lines) lines in
        let truncation_notice :=
          lit "[Output truncated: showing last " ++ str_of_int max_lines
            ++ lit " of " ++ str_of_int total_lines ++ lit " lines]" in
        truncation_notice ++ [LF] ++ join [LF] truncated_lines
  end.

(** The same function body run on a [bytes] argument: the lines are
    [bytes], and ["\n".join] of a non-empty list of them raises
    [TypeError]. *)
Definition _truncate_output_bytes (output : bytes) (max_lines : Z)
  : result AnyStr :=
  match output with
  | [] => Return (Bytes output)
  | _ :: _ =>
      let lines := bytes_splitlines output in
      let total_lines := len lines in
      if total_lines <=? max_lines then Return (Bytes output)
      else
        let truncated_lines := slice_from (- max_lines) lines in
        let truncation_notice :=
          lit "[Output truncated: showing last " ++ str_of_int max_lines
            ++ lit " of " ++ str_of_int total_lines ++ lit " lines]" in
        match truncated_lines with
        | [] => Return (Str (truncation_notice ++ [LF] ++ join [LF] []))
        | _ :: _ =>
            Raise (new_exc TypeError
                     (lit "sequence item 0: expected str instance, bytes found"))
        end
  end.

(** A call [self._truncate_output(output, max_lines)] on whatever
    [output] is at run time. *)
Definition call_truncate_output (output : AnyStr) (max_lines : Z)
  : result AnyStr :=
  match output with
  | Str s => Return (Str (_truncate_output s max_lines))
  | Bytes b => _truncate_output_bytes b max_lines
  end.

(** The list [command] that [run] builds: the executable, [-t device]
    when a device is given, then the arguments. *)
Definition argv (_executable : str) (device : option str)
    (args : list str) : list str :=
  [_executable]
    ++ match device with
       | Some (c :: d) => [lit "-t"; c :: d]
       | Some [] | None => []
       end
    ++ args.

(** [HdcRunner.run], with the records handed to the logger. *)
Definition run (w : os) (_executable : str) (args : list str)
    (device : option str) (timeout : option float)
    (env : option environment) (max_output_lines : Z)
  : list log_record * result HdcResult :=
  let command := argv _executable device args in
  let command_line := join (lit " ") (map Shlex.quote command) in
  let log0 :=
    [Log DEBUG "执行 hdc 命令: %s (timeout=%.1fs)"
       [VStr command_line; timeout_or_0 timeout]] in
  let duration_ms := elapsed_ms w in
  match subprocess_run w command None timeout (final_env w env) with
  | Return completed =>
      let stdout := _truncate_output (cp_stdout completed) max_output_lines in
      let stderr := _truncate_output (cp_stderr completed) max_output_lines in
      let log1 :=
        [Log DEBUG
           "hdc 命令完成: returncode=%d, 耗时 %d ms, stdout_len=%d, stderr_len=%d"
           [VInt (cp_returncode completed); VInt duration_ms;
            VInt (len stdout); VInt (len stderr)]] in
      let log2 :=
        if negb (cp_returncode completed =? 0) then
          Log WARNING "hdc 命令失败: returncode=%d, cmd=%s"
            [VInt (cp_returncode completed); VStr command_line]
          :: match strip stderr with
             | [] => []
             | _ :: _ =>
                 [Log WARNING "hdc stderr: %s"
                    [VStr (prefix 500 (strip stderr))]]
             end
        else [] in
      (log0 ++ log1 ++ log2,
       Return (mkHdcResult command (Str stdout) (Str stderr)
                 (cp_returncode completed) false))
  | Raise exc =>
      if isinstance exc TimeoutExpired then
        let log1 :=
          [Log ERROR "hdc 命令超时: timeout=%.1fs, 实际耗时 %d ms, cmd=%s"
             [timeout_or_0 timeout; VInt duration_ms; VStr command_line]] in
        (log0 ++ log1,
         match call_truncate_output (or_default (exc_stdout exc) [])
                 max_output_lines with
         | Raise e => Raise e
         | Return stdout =>
             match call_truncate_output
                     (or_default (exc_stderr exc)
                        (lit "timeout waiting for hdc"))
                     max_output_lines with
             | Raise e => Raise e
             | Return stderr =>
                 Return (mkHdcResult command stdout stderr (-1) true)
             end
         end)
      else if isinstance exc FileNotFoundError then
        (log0 ++ [Log ERROR "找不到 hdc 可执行文件: %s" [VStr _executable]],
         Raise (new_exc_from RuntimeError
                  (lit "Unable to execute '" ++ _executable
                     ++ lit "'. Ensure hdc is installed and on PATH.")
                  exc))
      else if isinstance exc Exception then
        (log0 ++
         [Log EXCEPTION "执行 hdc 命令时发生异常: cmd=%s, 耗时 %d ms, error=%s"
            [VStr command_line; VInt duration_ms; VStr (exc_str exc)]],
         Raise exc)
      else (log0, Raise exc)
  end.

(** [HdcResult._strip_ansi_codes] *)
Definition _strip_ansi_codes (text : str) : str :=
  AnsiPattern.sub_empty (length text) text.

(** [self._strip_ansi_codes(x.strip())] on whatever [x] is at run time:
    for [bytes], [strip] works and the [str] pattern then raises
    [TypeError]. *)
Definition stripped (x : AnyStr) : result str :=
  match x with
  | Str s => Return (_strip_ansi_codes (strip s))
  | Bytes _ =>
      Raise (new_exc TypeError
               (lit "cannot use a string pattern on a bytes-like object"))
  end.

(** [HdcResult.as_dict] *)
Definition as_dict (r : HdcResult) : result pyval :=
  match stripped (stdout r) with
  | Raise e => Raise e
  | Return out =>
      match stripped (stderr r) with
      | Raise e => Raise e
      | Return err =>
          Return (VDict
            [ (lit "command", VList (map VStr (command r)));
              (lit "command_line", VStr (command_line r));
              (lit "stdout", VStr out);
              (lit "stderr", VStr err);
              (lit "returncode", VInt (returncode r));
              (lit "timed_out", VBool (timed_out r)) ])
      end
  end.

End HdcRunner.

(** ** hvigor_runner.py *)

Module HvigorRunner.

Record HvigorResult := mkHvigorResult {
  command : list str;
  cwd : str;
  stdout : AnyStr;
  stderr : AnyStr;
  returncode : Z;
  timed_out : bool
}.

(** [HvigorResult.command_line] *)
Definition command_line (r : HvigorResult) : str :=
  join (lit " ") (map Shlex.quote (command r)).

Fixpoint first_file (w : os) (candidates : list str) : option str :=
  match candidates with
  | [] => None
  | candidate :: rest =>
      if path_isfile w candidate then Some candidate else first_file w rest
  end.

Definition candidates (w : os) (expanded_path : str) : list str :=
  [ path_join w expanded_path [lit "hvigorw"];
    path_join w expanded_path [lit "bin"; lit "hvigorw"] ].

(** [HvigorRunner._resolve_executable] *)
Definition _resolve_executable (w : os) (path : str) : result str :=
  match expand w path with
  | Raise e => Raise e
  | Return expanded_path =>
      Return
        (if negb (path_exists w expanded_path) then expanded_path
         else if path_isfile w expanded_path then expanded_path
         else
           match (if path_isdir w expanded_path
                  then first_file w (candidates w expanded_path)
                  else None) with
           | Some candidate => candidate
           | None => expanded_path
           end)
  end.

(** [HvigorRunner.__init__]: the value of [self._executable]. *)
Definition __init__ (w : os) (executable : option str) : result str :=
  _resolve_executable w
    (or_str executable
       (or_str (getenv w (lit "HVIGORW_PATH")) (lit "./hvigorw"))).

(** [HvigorRunner._truncate_output] *)
Definition _truncate_output (output : str) (max_lines : Z) : str :=
  match output with
  | [] => output
  | _ :: _ =>
      let lines := splitlines output in
      let total_lines := len lines in
      if total_lines <=? max_lines then output
      else
        let truncated_lines := slice_from (- max_lines) lines in
        let truncation_notice :=
          lit "[Output truncated: showing last " ++ str_of_int max_lines
            ++ lit " of " ++ str_of_int total_lines ++ lit " lines]" in
        truncation_notice ++ [LF] ++ join [LF] truncated_lines
  end.

(** The same function body run on a [bytes] argument: the lines are
    [bytes], and ["\n".join] of a non-empty list of them raises
    [TypeError]. *)
Definition _truncate_output_bytes (output : bytes) (max_lines : Z)
  : result AnyStr :=
  match output with
  | [] => Return (Bytes output)
  | _ :: _ =>
      let lines := bytes_splitlines output in
      let total_lines := len lines in
      if total_lines <=? max_lines then Return (Bytes output)
      else
        let truncated_lines := slice_from (- max_lines) lines in
        let truncation_notice :=
          lit "[Output truncated: showing last " ++ str_of_int max_lines
            ++ lit " of " ++ str_of_int total_lines ++ lit " lines]" in
        match truncated_lines with
        | [] => Return (Str (truncation_notice ++ [LF] ++ join [LF] []))
        | _ :: _ =>
            Raise (new_exc TypeError
                     (lit "sequence item 0: expected str instance, bytes found"))
        end
  end.

(** A call [self._truncate_output(output, max_lines)] on whatever
    [output] is at run time. *)
Definition call_truncate_output (output : AnyStr) (max_lines : Z)
  : result AnyStr :=
  match output with
  | Str s => Return (Str (_truncate_output s max_lines))
  | Bytes b => _truncate_output_bytes b max_lines
  end.

(** The list [command] that [run] builds. *)
Definition argv (_executable : str) (args : list str) : list str :=
  [_executable] ++ args.

(** [HvigorRunner.run] *)
Definition run (w : os) (_executable : str) (args : list str)
    (project_dir : str) (timeout : option float)
    (env : option environment) (max_output_lines : Z)
  : result HvigorResult :=
  match expand w project_dir with
  | Raise e => Raise e
  | Return resolved_project_dir =>
      match project_dir with
      | [] =>
          Raise (new_exc ValueError (lit "project_dir is required for hvigor builds"))
      | _ :: _ =>
          if negb (path_isdir w resolved_project_dir) then
            Raise (new_exc ValueError
                     (lit "project_dir '" ++ project_dir
                        ++ lit "' does not exist or is not a directory"))
          else
            let command := argv _executable args in
            match subprocess_run w command (Some resolved_project_dir) timeout
                    (final_env w env) with
            | Return completed =>
                let stdout :=
                  _truncate_output (cp_stdout completed) max_output_lines in
                let stderr :=
                  _truncate_output (cp_stderr completed) max_output_lines in
                Return (mkHvigorResult command resolved_project_dir
                          (Str stdout) (Str stderr)
                          (cp_returncode completed) false)
            | Raise exc =>
                if isinstance exc TimeoutExpired then
                  match call_truncate_output (or_default (exc_stdout exc) [])
                          max_output_lines with
                  | Raise e => Raise e
                  | Return stdout =>
                      match call_truncate_output
                              (or_default (exc_stderr exc)
                                 (lit "timeout waiting for hvigorw"))
                              max_output_lines with
                      | Raise e => Raise e
                      | Return stderr =>
                          Return (mkHvigorResult command resolved_project_dir
                                    stdout stderr (-1) true)
                      end
                  end
                else if isinstance exc FileNotFoundError then
                  Raise (new_exc_from RuntimeError
                           (lit "Unable to execute '" ++ _executable
                              ++ lit "'. Ensure hvigorw exists in the project "
                              ++ lit "or set HVIGORW_PATH to the wrapper path.")
                           exc)
                else Raise exc
            end
      end
  end.

(** [HvigorResult._strip_ansi_codes] *)
Definition _strip_ansi_codes (text : str) : str :=
  AnsiPattern.sub_empty (length text) text.

(** [self._strip_ansi_codes(x.strip())] on whatever [x] is at run time:
    for [bytes], [strip] works and the [str] pattern then raises
    [TypeError]. *)
Definition stripped (x : AnyStr) : result str :=
  match x with
  | Str s => Return (_strip_ansi_codes (strip s))
  | Bytes _ =>
      Raise (new_exc TypeError
               (lit "cannot use a string pattern on a bytes-like object"))
  end.

(** [HvigorResult.as_dict] *)
Definition as_dict (r : HvigorResult) : result pyval :=
  match stripped (stdout r) with
  | Raise e => Raise e
  | Return out =>
      match stripped (stderr r) with
      | Raise e => Raise e
      | Return err =>
          Return (VDict
            [ (lit "command", VList (map VStr (command r)));
              (lit "command_line", VStr (command_line r));
            (lit "cwd", VStr (cwd r));
              (lit "stdout", VStr out);
              (lit "stderr", VStr err);
              (lit "returncode", VInt (returncode r));
              (lit "timed_out", VBool (timed_out r)) ])
      end
  end.

End HvigorRunner.

(** ** service_bootstrap.py *)

Module ServiceBootstrap.

(** What the wrapper takes from the interpreter and the process:
    [repr(v)], [str(v)], [traceback.format_exc()] for the exception being
    handled, [log_file_path()], [uuid.uuid4().hex] and the milliseconds
    elapsed since [start_time]. *)
Record runtime := {
  repr : pyval -> str;
  to_str : pyval -> str;
  format_exc : exception -> str;
  log_file_path : str;
  uuid4_hex : str;
  duration_ms : Z
}.

(** [class InvalidArgumentsError(ValueError)] *)
Definition InvalidArgumentsError : cls :=
  UserClass (lit "InvalidArgumentsError") ValueError.

(** [split_arguments] *)
Definition split_arguments (arguments : str) : option (result (list str)) :=
  match Shlex.split arguments with
  | Some (Raise exc) =>
      if isinstance exc ValueError
      then Some (Raise (new_exc_from InvalidArgumentsError (exc_str exc) exc))
      else Some (Raise exc)
  | other => other
  end.

(** [_format_tool_exception] *)
Definition _format_tool_exception (rt : runtime) (tool_name : str)
    (exc : exception) : pyval :=
  VDict [ (lit "success", VBool false);
          (lit "error", VStr (exc_str exc));
          (lit "error_type", VStr (cls_name (exc_class exc)));
          (lit "tool", VStr tool_name);
          (lit "log_file", VStr (log_file_path rt));
          (lit "traceback", VStr (format_exc rt exc)) ].

Definition kwargs := list (str * pyval).

(** [{k: v for k, v in kwargs.items() if k != "ctx"}] *)
Definition without_ctx (kw : kwargs) : kwargs :=
  filter (fun kv => negb (str_eqb (fst kv) (lit "ctx"))) kw.

(** [_format_params] *)
Definition _format_params (rt : runtime) (kw : kwargs) : str :=
  match without_ctx kw with
  | [] => lit "{}"
  | filtered =>
      let part (kv : str * pyval) : str :=
        let (key, value) := kv in
        match value with
        | VStr s =>
            if 100 <? len s
            then key ++ lit "=" ++ prefix 100 s ++ lit "..."
            else key ++ lit "=" ++ repr rt value
        | VList _ | VDict _ =>
            if 200 <? len (to_str rt value)
            then key ++ lit "=" ++ prefix 200 (to_str rt value) ++ lit "..."
            else key ++ lit "=" ++ repr rt value
        | _ => key ++ lit "=" ++ repr rt value
        end in
      lit "{" ++ join (lit ", ") (map part filtered) ++ lit "}"
  end.

(** ["=" * 60] *)
Definition rule : string :=
  "============================================================".

(** A registered operation: positional and keyword arguments in, the
    records it logs and its outcome out. *)
Definition tool := list pyval -> kwargs -> list log_record * result pyval.

(** The records logged for the arguments of a call. *)
Definition log_arguments (request_id : str) (log_kwargs : kwargs)
  : list log_record :=
  match log_kwargs with
  | [] => [Log INFO "[请求 %s] 无参数" [VStr request_id]]
  | _ :: _ =>
      Log INFO "[请求 %s] 参数详情:" [VStr request_id]
      :: map (fun kv : str * pyval =>
                let (key, value) := kv in
                match value with
                | VStr s =>
                    if 200 <? len s
                    then Log INFO "[请求 %s]   %s = %s... (长度: %d)"
                           [VStr request_id; VStr key; VStr (prefix 200 s);
                            VInt (len s)]
                    else Log INFO "[请求 %s]   %s = %r"
                           [VStr request_id; VStr key; value]
                | _ => Log INFO "[请求 %s]   %s = %r"
                         [VStr request_id; VStr key; value]
                end)
           log_kwargs
  end.

(** The classification of a returned value: [(status, success)]. *)
Definition classify (rt : runtime) (result : pyval) : str * pyval :=
  let fallback := (lit "completed", VBool true) in
  match result with
  | VDict d =>
      match dict_get d (lit "success") with
      | Some success => (lit "success=" ++ to_str rt success, success)
      | None =>
          match dict_get d (lit "returncode") with
          | Some returncode =>
              (lit "returncode=" ++ to_str rt returncode,
               VBool (eq_zero returncode))
          | None => fallback
          end
      end
  | _ => fallback
  end.

(** [wrapped], the function [_safe_tool] registers in place of [func];
    [func_name] is [func.__name__]. *)
Definition wrapped (rt : runtime) (func_name : str) (func : tool)
    (args : list pyval) (kw : kwargs) : list log_record * result pyval :=
  let request_id := prefix 8 (uuid4_hex rt) in
  let log_kwargs := without_ctx kw in
  let entry :=
    [ Log INFO rule [];
      Log INFO "[请求 %s] 接收到工具调用: %s" [VStr request_id; VStr func_name] ]
      ++ log_arguments request_id log_kwargs
      ++ [ Log INFO "[请求 %s] 开始执行..." [VStr request_id] ] in
  let (func_log, outcome) := func args kw in
  match outcome with
  | Raise exc =>
      if isinstance exc Exception then
        (entry ++ func_log ++
         [ Log ERROR rule [];
           Log ERROR "[请求 %s] 工具执行异常: %s" [VStr request_id; VStr func_name];
           Log ERROR "[请求 %s] 耗时: %d ms" [VStr request_id; VInt (duration_ms rt)];
           Log ERROR "[请求 %s] 参数: %s"
             [VStr request_id; VStr (_format_params rt log_kwargs)];
           Log EXCEPTION "[请求 %s] 异常详情:" [VStr request_id];
           Log ERROR rule [] ],
         Return (_format_tool_exception rt func_name exc))
      else (entry ++ func_log, Raise exc)
  | Return result =>
      let (status, success) := classify rt result in
      let outcome_log :=
        if truthy success then
          [ Log INFO "[请求 %s] ✓ 执行成功: %s (%s) 耗时 %d ms"
              [VStr request_id; VStr func_name; VStr status;
               VInt (duration_ms rt)] ]
        else
          [ Log WARNING "[请求 %s] ✗ 执行失败: %s (%s) 耗时 %d ms"
              [VStr request_id; VStr func_name; VStr status;
               VInt (duration_ms rt)];
            Log WARNING "[请求 %s] 失败时的参数: %s"
              [VStr request_id; VStr (_format_params rt log_kwargs)] ]
          ++ match result with
             | VDict d =>
                 match dict_get d (lit "error") with
                 | Some error =>
                     [ Log WARNING "[请求 %s] 错误信息: %s"
                         [VStr request_id; error] ]
                 | None => []
                 end
             | _ => []
             end in
      (entry ++ func_log ++ outcome_log ++ [Log INFO rule []], Return result)
  end.

(** [execute_hdc]; [_runner] is the [_executable] of the module's
    [HdcRunner], and [run] gets its default [max_output_lines]. *)
Definition execute_hdc (w : os) (_runner : str) (args : list str)
    (device : option str) (timeout : option float)
  : list log_record * result pyval :=
  match args with
  | [] =>
      ([], Raise (new_exc InvalidArgumentsError
                    (lit "hdc command cannot be empty")))
  | _ :: _ =>
      let (log, outcome) :=
        HdcRunner.run w _runner args device timeout None 500 in
      (log,
       match outcome with
       | Raise e => Raise e
       | Return result => HdcRunner.as_dict result
       end)
  end.

(** [execute_hvigor] *)
Definition execute_hvigor (w : os) (_hvigor_runner : str) (args : list str)
    (project_dir : str) (timeout : option float) : result pyval :=
  match HvigorRunner.run w _hvigor_runner args project_dir timeout None 100 with
  | Raise e => Raise e
  | Return result => HvigorRunner.as_dict result
  end.

End ServiceBootstrap.

(** ** tools.py *)

Module Tools.

Import ServiceBootstrap.

(** [shell]: [None] only if the tokenizer ran out of fuel. *)
Definition shell (w : os) (_runner : str) (command : str)
    (device : option str) (timeout : option float)
  : option (list log_record * result pyval) :=
  match split_arguments command with
  | None => None
  | Some (Raise e) => Some ([], Raise e)
  | Some (Return tokens) =>
      Some (execute_hdc w _runner ([lit "shell"] ++ tokens) device timeout)
  end.

Definition valid_types : list str :=
  [lit "hap"; lit "hsp"; lit "har"; lit "app"].

Definition member (x : str) (l : list str) : bool := existsb (str_eqb x) l.

(** The first part of [hvigor_assemble]: the list [args] it hands to
    [execute_hvigor], or the exception it raises before.  [lower] is
    [str.lower] and [valid_types_repr] the text of [{valid_types}]. *)
Definition hvigor_assemble_args (lower : str -> str) (valid_types_repr : str)
    (target_type : str) (module : option str) (product build_mode : str)
    (no_daemon : bool) : result (list str) :=
  if negb (member target_type valid_types) then
    Raise (new_exc InvalidArgumentsError
             (lit "Invalid target_type '" ++ target_type
                ++ lit "'. Must be one of: " ++ valid_types_repr))
  else
    let target_type_lower := lower target_type in
    match
      (if str_eqb target_type_lower (lit "hap")
       then Some (lit "assembleHap", lit "module")
       else if str_eqb target_type_lower (lit "hsp")
       then Some (lit "assembleHsp", lit "module")
       else if str_eqb target_type_lower (lit "har")
       then Some (lit "assembleHar", lit "module")
       else if str_eqb target_type_lower (lit "app")
       then Some (lit "assembleApp", lit "project")
       else None)
    with
    | None =>
        Raise (new_exc InvalidArgumentsError
                 (lit "Unsupported target_type: " ++ target_type))
    | Some (task_name, mode) =>
        let args := [task_name; lit "--mode"; mode] in
        let args :=
          if member target_type_lower [lit "hap"; lit "hsp"; lit "har"] then
            (match module with
             | Some (c :: m) =>
                 args ++ [lit "-p";
                          lit "module=" ++ (c :: m) ++ lit "@" ++ product]
             | Some [] | None => args
             end) ++ [lit "-p"; lit "product=" ++ product]
          else args in
        let args :=
          if member target_type_lower [lit "hap"; lit "app"]
          then args ++ [lit "-p"; lit "buildMode=" ++ build_mode]
          else args in
        let args :=
          if str_eqb target_type_lower (lit "app")
          then args ++ [lit "-p"; lit "product=" ++ product]
          else args in
        let args := if no_daemon then args ++ [lit "--no-daemon"] else args in
        Return args
    end.

(** [hvigor_assemble] *)
Definition hvigor_assemble (w : os) (_hvigor_runner : str)
    (lower : str -> str) (valid_types_repr : str)
    (project_dir target_type : str) (module : option str)
    (product build_mode : str) (no_daemon : bool) (timeout : option float)
  : result pyval :=
  match hvigor_assemble_args lower valid_types_repr target_type module
          product build_mode no_daemon with
  | Raise e => Raise e
  | Return args => execute_hvigor w _hvigor_runner args project_dir timeout
  end.

End Tools.

(** ** build_helper.py *)

Module BuildHelper.

(** What the code asks of [pathlib] and [datetime].  A [Path] is stood for
    by its text [str(path)]: [of_str s] is [str(Path(s))], [div p x] is
    [str(Path(p) / x)], [exists_ p] is [Path(p).exists()], which answers
    or re-raises the [OSError] of the underlying [stat], [st_size] is
    [Path(p).stat().st_size] and [modified p] is
    [datetime.fromtimestamp(Path(p).stat().st_mtime).isoformat()]. *)
Record pathlib := {
  of_str : str -> str;
  div : str -> str -> str;
  exists_ : str -> result bool;
  st_size : str -> Z;
  modified : str -> str
}.

Record BuildOutput := mkBuildOutput {
  path : str;
  exists' : bool;
  size_bytes : option Z;
  modified_time : option str;
  module : option str;
  product : option str;
  build_mode : option str
}.

(** [_create_build_output] *)
Definition _create_build_output (fs : pathlib) (path : str)
    (module product build_mode : option str) : result BuildOutput :=
  match exists_ fs path with
  | Raise e => Raise e
  | Return true =>
      Return (mkBuildOutput path true (Some (st_size fs path))
                (Some (modified fs path)) module product build_mode)
  | Return false =>
      Return (mkBuildOutput path false None None module product build_mode)
  end.

(** The loop over [alternative_paths] in [find_hap_output]: the first
    path that exists, if any, unless an [exists()] on the way raises. *)
Fixpoint first_existing (fs : pathlib) (paths : list str)
  : result (option str) :=
  match paths with
  | [] => Return None
  | p :: rest =>
      match exists_ fs p with
      | Raise e => Raise e
      | Return true => Return (Some p)
      | Return false => first_existing fs rest
      end
  end.

Definition standard_path (fs : pathlib) (project_dir module product : str)
  : str :=
  div fs (div fs (div fs (div fs (div fs (div fs (of_str fs project_dir)
    module) (lit "build")) product) (lit "outputs")) product)
    (module ++ lit "-" ++ product ++ lit "-signed.hap").

Definition alternative_paths (fs : pathlib)
    (project_dir module build_mode product : str) : list str :=
  let project_path := of_str fs project_dir in
  [ div fs (div fs (div fs (div fs (div fs (div fs project_path
      module) (lit "build")) product) (lit "outputs")) build_mode)
      (module ++ lit "-" ++ product ++ lit "-signed.hap");
    div fs (div fs (div fs (div fs project_path module) (lit "build"))
      (lit "outputs")) (module ++ lit "-signed.hap");
    div fs (div fs (div fs (div fs (div fs project_path module) (lit "build"))
      (lit "outputs")) build_mode) (module ++ lit "-signed.hap");
    div fs (div fs (div fs (div fs (div fs (div fs project_path module)
      (lit "build")) (lit "outputs")) (lit "hap")) build_mode)
      (module ++ lit ".hap") ].

(** [find_hap_output] *)
Definition find_hap_output (fs : pathlib)
    (project_dir module build_mode product : str) : result BuildOutput :=
  let standard := standard_path fs project_dir module product in
  match exists_ fs standard with
  | Raise e => Raise e
  | Return true =>
      _create_build_output fs standard (Some module) (Some product)
        (Some build_mode)
  | Return false =>
      match first_existing fs
              (alternative_paths fs project_dir module build_mode product) with
      | Raise e => Raise e
      | Return (Some alt_path) =>
          _create_build_output fs alt_path (Some module) (Some product)
            (Some build_mode)
      | Return None =>
          Return (mkBuildOutput standard false None None (Some module)
                    (Some product) (Some build_mode))
      end
  end.

End BuildHelper.

(** ** Notions used in the statements *)

(** A string without line boundaries. *)
Definition no_break (s : str) : bool :=
  forallb (fun c => negb (is_linebreak c)) s.

(** What [splitlines] makes of lines joined by line feeds: the same
    lines, except that a final empty line disappears. *)
Fixpoint chomp (ls : list str) : list str :=
  match ls with
  | [] => []
  | l :: rest =>
      match rest with
      | [] => match l with [] => [] | _ :: _ => [l] end
      | _ :: _ => l :: chomp rest
      end
  end.

(** The notice line, as the specification words it:
    [[Output truncated: showing last {max_lines} of {total_lines} lines]]. *)
Definition notice (max_lines total_lines : Z) : str :=
  lit "[Output truncated: showing last " ++ str_of_int max_lines
    ++ lit " of " ++ str_of_int total_lines ++ lit " lines]".

(** The number of lines of a text. *)
Definition line_count (s : str) : Z := len (splitlines s).

(** Lines of ASCII text joined by line feeds, for concrete inputs. *)
Definition text (ls : list string) : str := join [LF] (map lit ls).

(** What a second and a third application of a truncator [T] do at the
    bound [m]. *)
Definition settles (T : str -> Z -> str) (s : str) (m : Z) : Prop :=
  (line_count s <= m + 1 -> T (T s m) m = T s m) /\
  (T (T s m) m = T s m \/
   T (T s m) m =
     notice m (m + 1) ++ [LF]
       ++ join [LF] (slice_from (- m) (splitlines s))) /\
  T (T (T s m) m) m = T (T s m) m.

(** What a truncator [T] answers at bound zero. *)
Definition keeps_everything (T : str -> Z -> str) (s : str) : Prop :=
  T s 0 = notice 0 (line_count s) ++ [LF] ++ join [LF] (splitlines s) /\
  1 <= line_count s /\
  (last (splitlines s) [] <> [] ->
   splitlines (T s 0) = notice 0 (line_count s) :: splitlines s /\
   line_count (T s 0) = line_count s + 1).

(** The contract of a resolver [resolve] that probes [probes p] below a
    directory [p]: what the expansion raises is raised; when the
    expansion returns, the resolver returns, and what it returns is
    settled by looking up the expanded path. *)
Definition resolves_by_probing (w : os) (resolve : str -> result str)
    (probes : str -> list str) (path : str) : Prop :=
  (forall e, expand w path = Raise e -> resolve path = Raise e) /\
  (forall p,
      expand w path = Return p ->
      (exists r, resolve path = Return r) /\
      (stat w p = None -> resolve path = Return p) /\
      (stat w p = Some RegularFile -> resolve path = Return p) /\
      (stat w p = Some Directory ->
       (forall before c after,
           probes p = before ++ c :: after ->
           Forall (fun b => stat w b <> Some RegularFile) before ->
           stat w c = Some RegularFile ->
           resolve path = Return c) /\
       (Forall (fun b => stat w b <> Some RegularFile) (probes p) ->
        resolve path = Return p))).

Definition SP : char := 32%N.

(** A character that the lexer treats as an ordinary one. *)
Definition ordinary (c : char) : bool :=
  negb (char_in c Shlex.whitespace) && negb (char_in c Shlex.escape)
    && negb (char_in c Shlex.quotes).

(** A text without the escape character. *)
Definition no_esc (s : str) : bool :=
  forallb (fun c => negb (eqc c AnsiPattern.ESC)) s.

(** A text made of digits and semicolons. *)
Definition all_params (s : str) : bool := forallb AnsiPattern.is_param s.

(** The escape sequence [ESC [ params m]. *)
Definition sgr (params : str) : str :=
  [AnsiPattern.ESC; 91%N] ++ params ++ [109%N].

(** A record logged at level [WARNING]. *)
Definition is_warning (r : log_record) : bool :=
  match log_level r with WARNING => true | _ => false end.

(** The world [w] with another [subprocess.run]. *)
Definition with_spawn (w : os)
    (spawn : list str -> option str -> option float -> environment ->
             result CompletedProcess) : os :=
  {| environ := environ w;
     expandvars := expandvars w;
     expanduser := expanduser w;
     path_join := path_join w;
     stat := stat w;
     subprocess_run := spawn;
     elapsed_ms := elapsed_ms w |}.

(** The dictionary [v] describes an invocation: its [command],
    [returncode] and [timed_out] entries are the given ones and its
    [command_line] entry splits back into the command. *)
Definition describes (v : pyval) (command : list str) (returncode : Z)
    (timed_out : bool) : Prop :=
  exists d,
    v = VDict d /\
    dict_get d (lit "command") = Some (VList (map VStr command)) /\
    dict_get d (lit "returncode") = Some (VInt returncode) /\
    dict_get d (lit "timed_out") = Some (VBool timed_out) /\
    exists cl,
      dict_get d (lit "command_line") = Some (VStr cl) /\
      Shlex.split cl = Some (Return command).

(** The entry of a dictionary under [key]. *)
Definition entry (v : pyval) (key : string) : option pyval :=
  match v with
  | VDict d => dict_get d (lit key)
  | _ => None
  end.

(** The two errors of the lexer. *)
Definition lexer_error (e : exception) : Prop :=
  e = new_exc ValueError (lit "No closing quotation") \/
  e = new_exc ValueError (lit "No escaped character").

(** The flags [hvigor_assemble] adds for a module and for the daemon. *)
Definition module_flag (module : option str) (product : str) : list str :=
  match module with
  | Some (c :: m) => [lit "-p"; lit "module=" ++ (c :: m) ++ lit "@" ++ product]
  | Some [] | None => []
  end.

Definition daemon_flag (no_daemon : bool) : list str :=
  if no_daemon then [lit "--no-daemon"] else [].

(** ** Concrete worlds for the examples *)

Module Examples.

(** The user name after [~]: the characters up to the first slash. *)
Fixpoint user_name (s : str) : str :=
  match s with
  | [] => []
  | c :: s' => if eqc c 47%N then [] else c :: user_name s'
  end.

(** A machine whose home directory holds an SDK directory with only
    [bin/hdc.exe] in it and a project directory; [spawn] stands for
    what [subprocess.run] does there.  [~/...] expands to the home
    directory, [~user] is left alone for want of such a user, and a null
    byte in the user name makes [expanduser] raise. *)
Definition machine
    (spawn : list str -> option str -> option float -> environment ->
             result CompletedProcess) : os :=
  {| environ := [(lit "HOME", lit "/home/u")];
     expandvars := fun p => Return p;
     expanduser := fun p =>
       match p with
       | 126%N :: rest =>
           match user_name rest with
           | [] => Return (lit "/home/u" ++ rest)
           | user =>
               if char_in 0%N user
               then Raise (new_exc ValueError (lit "embedded null byte"))
               else Return p
           end
       | _ => Return p
       end;
     path_join := posix_join;
     stat := fun p =>
       if str_eqb p (lit "/home/u/sdk") then Some Directory
       else if str_eqb p (lit "/home/u/sdk/bin/hdc.exe") then Some RegularFile
       else if str_eqb p (lit "/home/u/proj") then Some Directory
       else None;
     subprocess_run := spawn;
     elapsed_ms := 1500 |}.

(** The process outlives the timeout; [out] and [err] are what
    [TimeoutExpired] carries. *)
Definition times_out (out err : option AnyStr)
  : list str -> option str -> option float -> environment ->
    result CompletedProcess :=
  fun _ _ _ _ =>
    Raise (Exc TimeoutExpired (lit "Command timed out") None out err).

(** Lines of ASCII text as the bytes a process wrote. *)
Definition written (ls : list string) : bytes :=
  concat (map (fun l => list_byte_of_string l ++ [x0a]) ls).

(** The process ends with the given output and exit code. *)
Definition completes (out err : str) (returncode : Z)
  : list str -> option str -> option float -> environment ->
    result CompletedProcess :=
  fun _ _ _ _ => Return (Completed out err returncode).

(** [subprocess.run] fails with a permission error. *)
Definition permission_error : exception :=
  new_exc (UserClass (lit "PermissionError") OSError)
    (lit "[Errno 13] Permission denied").

Definition denied : list str -> option str -> option float ->
                    environment -> result CompletedProcess :=
  fun _ _ _ _ => Raise permission_error.

(** The executable is not there. *)
Definition not_found : list str -> option str -> option float ->
                       environment -> result CompletedProcess :=
  fun _ _ _ _ =>
    Raise (new_exc FileNotFoundError
             (lit "[Errno 2] No such file or directory")).

Definition runtime0 : ServiceBootstrap.runtime :=
  {| ServiceBootstrap.repr := fun _ => lit "<repr>";
     ServiceBootstrap.to_str := fun _ => lit "<str>";
     ServiceBootstrap.format_exc := fun _ => lit "Traceback (most recent call last): ...";
     ServiceBootstrap.log_file_path := lit "/home/u/.cache/harmony-tools/harmony-tools.log";
     ServiceBootstrap.uuid4_hex := lit "0123456789abcdef0123456789abcdef";
     ServiceBootstrap.duration_ms := 12 |}.

(** Operations to wrap: one that raises [ValueError("bad arg")], one
    interrupted from the keyboard, one that reports a failed build, and
    one that returns a string. *)
Definition bad_arg_tool : ServiceBootstrap.tool :=
  fun _ _ => ([], Raise (new_exc ValueError (lit "bad arg"))).

Definition interrupted_tool : ServiceBootstrap.tool :=
  fun _ _ => ([], Raise (new_exc KeyboardInterrupt [])).

Definition failed_build_tool : ServiceBootstrap.tool :=
  fun _ _ =>
    ([], Return (VDict [ (lit "returncode", VInt 3);
                         (lit "stderr", VStr (lit "BUILD FAILED")) ])).

Definition plain_text_tool : ServiceBootstrap.tool :=
  fun _ _ => ([], Return (VStr (lit "5.0.1"))).

(** An operation that logs a warning of its own and returns a text. *)
Definition warning_tool : ServiceBootstrap.tool :=
  fun _ _ =>
    ([Log WARNING "device offline, retrying" []], Return (VStr (lit "ok"))).

(** A project tree in which only the build-mode variant of the HAP
    exists. *)
Definition tree : BuildHelper.pathlib :=
  {| BuildHelper.of_str := fun s => s;
     BuildHelper.div := fun p x => p ++ lit "/" ++ x;
     BuildHelper.exists_ := fun p =>
       Return (str_eqb p (lit "proj/entry/build/default/outputs/debug/entry-default-signed.hap"));
     BuildHelper.st_size := fun _ => 4096;
     BuildHelper.modified := fun _ => lit "2024-05-01T10:00:00" |}.

(** ASCII lower-casing, enough for the target types. *)
Definition ascii_lower (s : str) : str :=
  map (fun c => if ((65 <=? c)%N && (c <=? 90)%N) then (c + 32)%N else c) s.

End Examples.

Import Examples.

(** * Properties *)

(** ** Lines of a string *)

Section Lines.

Lemma no_break_app a b :
  no_break (a ++ b) = no_break a && no_break b.
Proof. apply forallb_app. Qed.

Lemma LF_is_linebreak : is_linebreak LF = true.
Proof. reflexivity. Qed.

Lemma splitlines_cons_plain c s :
  is_linebreak c = false ->
  splitlines (c :: s) =
    match splitlines s with [] => [[c]] | l :: ls => (c :: l) :: ls end.
Proof. intros H. simpl. rewrite H. reflexivity. Qed.

(** A line followed by a line feed is split off as it stands. *)
Lemma splitlines_app_LF l r :
  no_break l = true ->
  splitlines (l ++ LF :: r) = l :: splitlines r.
Proof.
  induction l as [|c l IH]; intros H.
  - reflexivity.
  - simpl in H. apply andb_true_iff in H as [Hc Hl].
    apply negb_true_iff in Hc.
    change ((c :: l) ++ LF :: r) with (c :: (l ++ LF :: r)).
    rewrite (splitlines_cons_plain _ _ Hc), (IH Hl). reflexivity.
Qed.

Lemma splitlines_plain l :
  no_break l = true ->
  splitlines l = match l with [] => [] | _ :: _ => [l] end.
Proof.
  induction l as [|c l IH]; intros H.
  - reflexivity.
  - simpl in H. apply andb_true_iff in H as [Hc Hl].
    apply negb_true_iff in Hc.
    rewrite (splitlines_cons_plain _ _ Hc), (IH Hl).
    destruct l; reflexivity.
Qed.

Lemma splitlines_lines_plain_upto n :
  forall s, (length s <= n)%nat ->
            Forall (fun l => no_break l = true) (splitlines s).
Proof.
  induction n as [|n IH]; intros s Hn.
  - destruct s; [constructor | simpl in Hn; lia].
  - destruct s as [|c s]; [constructor|].
    simpl in Hn. simpl.
    destruct (is_linebreak c) eqn:Hc.
    + constructor; [reflexivity|].
      destruct (eqc c CR); [|apply IH; lia].
      destruct s as [|d s]; [constructor|].
      destruct (eqc d LF); apply IH; simpl in *; lia.
    + assert (Hs : Forall (fun l => no_break l = true) (splitlines s))
        by (apply IH; lia).
      destruct (splitlines s) as [|l ls].
      * constructor; [simpl; rewrite Hc; reflexivity | constructor].
      * inversion Hs; subst. constructor; [|assumption].
        simpl. rewrite Hc. assumption.
Qed.

(** No line of [splitlines] contains a line boundary. *)
Lemma splitlines_lines_plain s :
  Forall (fun l => no_break l = true) (splitlines s).
Proof. apply (splitlines_lines_plain_upto (length s)). lia. Qed.

(** A non-empty string has at least one line. *)
Lemma splitlines_nonempty c s : splitlines (c :: s) <> [].
Proof.
  simpl. destruct (is_linebreak c); [discriminate|].
  destruct (splitlines s); discriminate.
Qed.

Lemma splitlines_join ls :
  Forall (fun l => no_break l = true) ls ->
  splitlines (join [LF] ls) = chomp ls.
Proof.
  induction ls as [|l rest IH]; intros H.
  - reflexivity.
  - inversion H as [|? ? Hl Hrest]; subst.
    destruct rest as [|l2 rest].
    + simpl. apply splitlines_plain. assumption.
    + change (join [LF] (l :: l2 :: rest))
        with (l ++ LF :: join [LF] (l2 :: rest)).
      rewrite (splitlines_app_LF _ _ Hl), (IH Hrest). reflexivity.
Qed.

Lemma chomp_length ls :
  (length (chomp ls) <= length ls)%nat /\
  (chomp ls = ls \/ S (length (chomp ls)) = length ls).
Proof.
  induction ls as [|l rest IH].
  - simpl. split; [lia | left; reflexivity].
  - destruct rest as [|l2 rest].
    + destruct l; simpl; split; try lia; auto.
    + change (chomp (l :: l2 :: rest)) with (l :: chomp (l2 :: rest)).
      destruct IH as [IH1 [IH2|IH2]].
      * rewrite IH2. split; [lia | left; reflexivity].
      * split; [simpl in *; lia | right; simpl in *; lia].
Qed.

Lemma no_break_digits d :
  no_break (lit (NilEmpty.string_of_uint d)) = true.
Proof. induction d; simpl; try reflexivity; assumption. Qed.

Lemma no_break_str_of_int n : no_break (str_of_int n) = true.
Proof.
  unfold str_of_int.
  destruct (Z.to_int n) as [d|d]; simpl;
    destruct d; try reflexivity; apply (no_break_digits (_ d)).
Qed.

End Lines.

(** ** The output truncator *)

Section Truncation.

(** The two runners carry the same truncator. *)
Lemma truncators_agree :
  HvigorRunner._truncate_output = HdcRunner._truncate_output.
Proof. reflexivity. Qed.

Lemma truncate_unfold c s m :
  HdcRunner._truncate_output (c :: s) m =
    if line_count (c :: s) <=? m then c :: s
    else notice m (line_count (c :: s)) ++ [LF]
           ++ join [LF] (slice_from (- m) (splitlines (c :: s))).
Proof. reflexivity. Qed.

Lemma truncate_within s m :
  line_count s <= m -> HdcRunner._truncate_output s m = s.
Proof.
  intros H. destruct s as [|c s]; [reflexivity|].
  rewrite truncate_unfold.
  apply Z.leb_le in H. rewrite H. reflexivity.
Qed.

Lemma truncate_over s m :
  s <> [] -> m < line_count s ->
  HdcRunner._truncate_output s m =
    notice m (line_count s) ++ [LF]
      ++ join [LF] (slice_from (- m) (splitlines s)).
Proof.
  intros Hs H. destruct s as [|c s]; [contradiction|].
  rewrite truncate_unfold.
  apply Z.leb_gt in H. rewrite H. reflexivity.
Qed.

Lemma no_break_notice m t : no_break (notice m t) = true.
Proof.
  unfold notice. rewrite !no_break_app, !no_break_str_of_int. reflexivity.
Qed.

Lemma notice_starts m t : exists tl, notice m t = 91%N :: tl.
Proof. eexists. reflexivity. Qed.

(** [l[-m:]] for [1 <= m <= len(l)] is the last [m] elements. *)
Lemma slice_last {A} (l : list A) m :
  1 <= m <= len l ->
  slice_from (- m) l = skipn (length l - Z.to_nat m) l /\
  len (slice_from (- m) l) = m.
Proof.
  unfold slice_from, len. intros H.
  assert (E : (- m <? 0) = true) by (apply Z.ltb_lt; lia).
  rewrite E.
  replace (Z.to_nat (Z.max (- m + Z.of_nat (length l)) 0))
    with (length l - Z.to_nat m)%nat by lia.
  split; [reflexivity|]. rewrite length_skipn. lia.
Qed.

Lemma slice_zero {A} (l : list A) : slice_from (- 0) l = l.
Proof. unfold slice_from. simpl. rewrite Z.min_l by lia. reflexivity. Qed.

Lemma slice_drops_head {A} (x : A) (l : list A) m :
  1 <= m -> len l = m -> slice_from (- m) (x :: l) = l.
Proof.
  intros Hm Hl.
  destruct (slice_last (x :: l) m) as [E _].
  { unfold len in *. simpl length. lia. }
  rewrite E. unfold len in Hl. simpl length.
  replace (S (length l) - Z.to_nat m)%nat with 1%nat by lia.
  reflexivity.
Qed.

Lemma Forall_skipn {A} (P : A -> Prop) n (l : list A) :
  Forall P l -> Forall P (skipn n l).
Proof.
  intros H. rewrite <- (firstn_skipn n l) in H.
  apply Forall_app in H. tauto.
Qed.

Lemma kept_lines_plain s m :
  Forall (fun l => no_break l = true) (slice_from (- m) (splitlines s)).
Proof. unfold slice_from. apply Forall_skipn, splitlines_lines_plain. Qed.

(** The lines of a truncated text: the notice, then the kept lines
    without a final empty one. *)
Lemma lines_of_truncated m t kept :
  Forall (fun l => no_break l = true) kept ->
  splitlines (notice m t ++ [LF] ++ join [LF] kept) =
    notice m t :: chomp kept.
Proof.
  intros H.
  change (notice m t ++ [LF] ++ join [LF] kept)
    with (notice m t ++ LF :: join [LF] kept).
  rewrite (splitlines_app_LF _ _ (no_break_notice m t)), (splitlines_join _ H).
  reflexivity.
Qed.

Lemma truncated_nonempty m t x : notice m t ++ x <> [].
Proof. destruct (notice_starts m t) as [tl ->]. discriminate. Qed.

(** Truncating a text that is already a notice followed by [m] lines. *)
Lemma truncate_truncated m t kept :
  1 <= m ->
  Forall (fun l => no_break l = true) kept ->
  len kept = m ->
  let t1 := notice m t ++ [LF] ++ join [LF] kept in
  (chomp kept = kept ->
   HdcRunner._truncate_output t1 m =
     notice m (m + 1) ++ [LF] ++ join [LF] kept) /\
  (S (length (chomp kept)) = length kept ->
   HdcRunner._truncate_output t1 m = t1).
Proof.
  intros Hm Hplain Hlen t1. split; intros Hc.
  - rewrite truncate_over.
    + unfold line_count, t1. rewrite (lines_of_truncated _ _ _ Hplain), Hc.
      rewrite (slice_drops_head _ _ _ Hm Hlen).
      replace (len (notice m t :: kept)) with (m + 1)
        by (unfold len in *; simpl length; lia).
      reflexivity.
    + apply truncated_nonempty.
    + unfold line_count, t1. rewrite (lines_of_truncated _ _ _ Hplain), Hc.
      unfold len in *. simpl length. lia.
  - apply truncate_within.
    unfold line_count, t1. rewrite (lines_of_truncated _ _ _ Hplain).
    unfold len in *. simpl length. lia.
Qed.

Lemma chomp_last ls : last ls [] <> [] -> chomp ls = ls.
Proof.
  induction ls as [|l rest IH]; intros H; [reflexivity|].
  destruct rest as [|l2 rest].
  - simpl in *. destruct l; [contradiction | reflexivity].
  - change (chomp (l :: l2 :: rest)) with (l :: chomp (l2 :: rest)).
    rewrite IH; [reflexivity | exact H].
Qed.

(** For a bound of at least one line and a longer text, the result is
    the notice followed by exactly the last [m] lines, and it has at
    most [m + 1] lines. *)
Lemma truncate_positive_bound s m :
  1 <= m -> m < line_count s ->
  let kept := slice_from (- m) (splitlines s) in
  HdcRunner._truncate_output s m =
    notice m (line_count s) ++ [LF] ++ join [LF] kept /\
  kept = skipn (length (splitlines s) - Z.to_nat m) (splitlines s) /\
  len kept = m /\
  line_count (HdcRunner._truncate_output s m) <= m + 1.
Proof.
  intros Hm Hover kept. subst kept.
  assert (Hs : s <> []).
  { intros ->. unfold line_count, len in Hover. simpl in Hover. lia. }
  destruct (slice_last (splitlines s) m) as [E L];
    [unfold line_count in Hover; lia|].
  rewrite (truncate_over _ _ Hs Hover).
  split; [reflexivity|]. split; [exact E|]. split; [exact L|].
  unfold line_count at 1.
  rewrite (lines_of_truncated _ _ _ (kept_lines_plain s m)).
  pose proof (chomp_length (slice_from (- m) (splitlines s))) as [Hle _].
  unfold len in *. simpl length. lia.
Qed.

End Truncation.

(** ** Claims about the truncator *)

Section TruncatorClaims.

(** C1, at the input where the code departs from it.  With
    [max_lines = 0] and the two-line text ["a\nb"] (so [L = 2 > 0]) both
    truncators answer the notice "showing last 0 of 2 lines" followed by
    both input lines: three lines where the claim allows at most
    [max_lines + 1 = 1], because [lines[-0:]] is the whole list. *)
Theorem truncate_zero_bound_overflows :
  let out :=
    text ["[Output truncated: showing last 0 of 2 lines]"; "a"; "b"] in
  HdcRunner._truncate_output (text ["a"; "b"]) 0 = out /\
  HvigorRunner._truncate_output (text ["a"; "b"]) 0 = out /\
  line_count (text ["a"; "b"]) = 2 /\
  line_count out = 3 /\
  ~ line_count out <= 0 + 1.
Proof. repeat split; try reflexivity. vm_compute. congruence. Qed.

Lemma hdc_settles s m : 1 <= m -> settles HdcRunner._truncate_output s m.
Proof.
  intros Hm. unfold settles.
  destruct (Z_le_gt_dec (line_count s) m) as [Hle|Hgt].
  - rewrite !(truncate_within s m Hle). repeat split; auto.
  - destruct (truncate_positive_bound s m Hm) as (E & _ & L & _); [lia|].
    pose proof (kept_lines_plain s m) as Hplain.
    destruct (truncate_truncated m (line_count s) _ Hm Hplain L) as [A B].
    rewrite E.
    destruct (chomp_length (slice_from (- m) (splitlines s)))
      as [_ [Hc|Hc]].
    + rewrite (A Hc).
      destruct (truncate_truncated m (m + 1) _ Hm Hplain L) as [A' _].
      repeat split.
      * intros Hle. replace (line_count s) with (m + 1) by lia. reflexivity.
      * right. reflexivity.
      * apply (A' Hc).
    + rewrite !(B Hc). repeat split; auto.
Qed.

(** C5 (as amended).  For every bound [m >= 1] and every text [s], on
    either truncator: a second application at the same bound is a no-op
    when [s] has at most [m + 1] lines; in general it either is a no-op
    or keeps the same content lines under a notice that now reports
    [m + 1] total lines; and from the second application on nothing
    changes any more. *)
Theorem truncate_settles_after_two s m :
  1 <= m ->
  settles HdcRunner._truncate_output s m /\
  settles HvigorRunner._truncate_output s m.
Proof.
  intros Hm. rewrite truncators_agree. split; apply hdc_settles; exact Hm.
Qed.

Lemma truncate_settles_after_two_witness :
  1 <= 2 /\
  settles HdcRunner._truncate_output (text ["a"; "b"; "c"; "d"]) 2 /\
  settles HvigorRunner._truncate_output (text ["a"; "b"; "c"; "d"]) 2.
Proof.
  split; [lia|].
  apply (truncate_settles_after_two (text ["a"; "b"; "c"; "d"]) 2). lia.
Defined.

(** C5, as stated, fails: truncating the four-line text ["a\nb\nc\nd"]
    at bound 2 gives "...last 2 of 4 lines]\nc\nd", and truncating that
    again gives "...last 2 of 3 lines]\nc\nd". *)
Lemma truncate_not_idempotent :
  let s := text ["a"; "b"; "c"; "d"] in
  HdcRunner._truncate_output s 2 =
    text ["[Output truncated: showing last 2 of 4 lines]"; "c"; "d"] /\
  HdcRunner._truncate_output (HdcRunner._truncate_output s 2) 2 =
    text ["[Output truncated: showing last 2 of 3 lines]"; "c"; "d"] /\
  HdcRunner._truncate_output (HdcRunner._truncate_output s 2) 2
    <> HdcRunner._truncate_output s 2.
Proof. repeat split; try reflexivity. vm_compute. discriminate. Qed.

(** C8.  A text with at most [max_lines] lines, and the empty text at
    any bound, comes back from either truncator exactly as it went
    in. *)
Theorem truncate_identity_within_bound s m :
  line_count s <= m \/ s = [] ->
  HdcRunner._truncate_output s m = s /\
  HvigorRunner._truncate_output s m = s.
Proof.
  intros H. rewrite truncators_agree.
  assert (E : HdcRunner._truncate_output s m = s).
  { destruct H as [H| ->]; [apply truncate_within; exact H | reflexivity]. }
  split; exact E.
Qed.

Lemma truncate_identity_within_bound_witness :
  (line_count (text ["a"; "b"; ""; ""]) <= 4 \/ text ["a"; "b"; ""; ""] = []) /\
  HdcRunner._truncate_output (text ["a"; "b"; ""; ""]) 4
    = text ["a"; "b"; ""; ""] /\
  HvigorRunner._truncate_output (text ["a"; "b"; ""; ""]) 4
    = text ["a"; "b"; ""; ""].
Proof.
  assert (H : line_count (text ["a"; "b"; ""; ""]) <= 4)
    by (vm_compute; discriminate).
  split; [left; exact H|].
  apply (truncate_identity_within_bound (text ["a"; "b"; ""; ""]) 4).
  left; exact H.
Defined.

(** C9.  At [max_lines = 0] and a non-empty text, either truncator
    answers the notice "showing last 0 of {total_lines} lines" followed
    by every line of the input; when the last line is not empty the
    answer therefore has [total_lines + 1] lines. *)
Theorem truncate_zero_bound_keeps_all s :
  s <> [] ->
  keeps_everything HdcRunner._truncate_output s /\
  keeps_everything HvigorRunner._truncate_output s.
Proof.
  intros Hs. rewrite truncators_agree.
  assert (K : keeps_everything HdcRunner._truncate_output s).
  { unfold keeps_everything.
    assert (Hpos : 1 <= line_count s).
    { destruct s as [|c s]; [contradiction|].
      pose proof (splitlines_nonempty c s) as Hne.
      unfold line_count, len.
      destruct (splitlines (c :: s)); [contradiction | simpl length; lia]. }
    assert (E : HdcRunner._truncate_output s 0 =
                notice 0 (line_count s) ++ [LF]
                  ++ join [LF] (splitlines s)).
    { rewrite (truncate_over s 0 Hs) by lia.
      rewrite (slice_zero (splitlines s)). reflexivity. }
    split; [exact E|]. split; [exact Hpos|].
    intros Hlast. rewrite E.
    assert (L : splitlines (notice 0 (line_count s) ++ [LF]
                              ++ join [LF] (splitlines s))
                = notice 0 (line_count s) :: splitlines s).
    { rewrite (lines_of_truncated _ _ _ (splitlines_lines_plain s)).
      rewrite (chomp_last _ Hlast). reflexivity. }
    split; [exact L|].
    unfold line_count at 1. rewrite L.
    unfold line_count, len. simpl length. lia. }
  split; exact K.
Qed.

Lemma truncate_zero_bound_keeps_all_witness :
  text ["a"; "b"; "c"] <> [] /\
  keeps_everything HdcRunner._truncate_output (text ["a"; "b"; "c"]) /\
  keeps_everything HvigorRunner._truncate_output (text ["a"; "b"; "c"]).
Proof.
  assert (H : text ["a"; "b"; "c"] <> []) by (vm_compute; discriminate).
  split; [exact H|].
  apply (truncate_zero_bound_keeps_all (text ["a"; "b"; "c"]) H).
Defined.

End TruncatorClaims.

(** ** The executable resolver *)

Section Resolver.

Variable w : os.

Lemma first_file_agree :
  HvigorRunner.first_file = HdcRunner.first_file.
Proof. reflexivity. Qed.

Lemma first_file_found before c after :
  Forall (fun b => path_isfile w b = false) before ->
  path_isfile w c = true ->
  HdcRunner.first_file w (before ++ c :: after) = Some c.
Proof.
  induction 1 as [|b before Hb _ IH]; intros Hc; simpl.
  - rewrite Hc. reflexivity.
  - rewrite Hb. apply IH, Hc.
Qed.

Lemma first_file_missing l :
  Forall (fun b => path_isfile w b = false) l ->
  HdcRunner.first_file w l = None.
Proof.
  induction 1 as [|b l Hb _ IH]; simpl; [reflexivity|].
  rewrite Hb. exact IH.
Qed.

Lemma not_regular_isfile b :
  stat w b <> Some RegularFile -> path_isfile w b = false.
Proof.
  unfold path_isfile. intros H.
  destruct (stat w b) as [[| |]|]; try reflexivity. contradiction.
Qed.

Lemma not_regular_all l :
  Forall (fun b => stat w b <> Some RegularFile) l ->
  Forall (fun b => path_isfile w b = false) l.
Proof.
  intros H. eapply Forall_impl; [|exact H].
  intros b. apply not_regular_isfile.
Qed.

Lemma resolver_contract (probes : str -> list str) path :
  resolves_by_probing w
    (fun path =>
       match expand w path with
       | Raise e => Raise e
       | Return expanded_path =>
           Return
             (if negb (path_exists w expanded_path) then expanded_path
              else if path_isfile w expanded_path then expanded_path
              else
                match (if path_isdir w expanded_path
                       then HdcRunner.first_file w (probes expanded_path)
                       else None) with
                | Some candidate => candidate
                | None => expanded_path
                end)
       end)
    probes path.
Proof.
  unfold resolves_by_probing, path_exists, path_isdir. split.
  - intros e He. rewrite He. reflexivity.
  - intros p Hp. rewrite Hp. split; [eexists; reflexivity|]. repeat split.
    + intros H. rewrite H. reflexivity.
    + intros H. unfold path_isfile. rewrite H. reflexivity.
    + intros before c after Hl Hb Hc. unfold path_isfile at 1.
      rewrite H. simpl. rewrite Hl.
      rewrite (first_file_found before c after (not_regular_all _ Hb));
        [reflexivity|].
      unfold path_isfile. rewrite Hc. reflexivity.
    + intros Hall. unfold path_isfile at 1. rewrite H. simpl.
      rewrite (first_file_missing _ (not_regular_all _ Hall)). reflexivity.
Qed.

(** C7 (as amended).  Each resolver raises exactly when the expansion of
    its input ([os.path.expandvars], then [os.path.expanduser]) raises,
    and then that exception; when the expansion returns, the resolver
    returns: a path that does not exist or is a regular file is answered
    as expanded, an existing directory is answered by the first probe, in
    the order hdc, hdc.exe, bin/hdc, bin/hdc.exe (for hvigorw: hvigorw,
    bin/hvigorw), that is a regular file, and by the expanded directory
    itself when no probe is. *)
Theorem resolve_executable_contract path :
  resolves_by_probing w (HdcRunner._resolve_executable w)
    (fun dir =>
       [ path_join w dir [lit "hdc"];
         path_join w dir [lit "hdc.exe"];
         path_join w dir [lit "bin"; lit "hdc"];
         path_join w dir [lit "bin"; lit "hdc.exe"] ])
    path /\
  resolves_by_probing w (HvigorRunner._resolve_executable w)
    (fun dir =>
       [ path_join w dir [lit "hvigorw"];
         path_join w dir [lit "bin"; lit "hvigorw"] ])
    path.
Proof. split; apply resolver_contract. Qed.

End Resolver.

Lemma resolve_executable_contract_witness :
  HdcRunner._resolve_executable (machine not_found) (lit "~/sdk")
    = Return (lit "/home/u/sdk/bin/hdc.exe") /\
  HvigorRunner._resolve_executable (machine not_found) (lit "~/sdk")
    = Return (lit "/home/u/sdk").
Proof.
  destruct (resolve_executable_contract (machine not_found) (lit "~/sdk"))
    as [[_ Hd] [_ Hv]].
  split.
  - destruct (Hd (lit "/home/u/sdk") ltac:(vm_compute; reflexivity))
      as (_ & _ & _ & Hdir).
    destruct (Hdir ltac:(vm_compute; reflexivity)) as [Hfound _].
    apply (Hfound [lit "/home/u/sdk/hdc"; lit "/home/u/sdk/hdc.exe";
                   lit "/home/u/sdk/bin/hdc"]
                  (lit "/home/u/sdk/bin/hdc.exe") []).
    + vm_compute; reflexivity.
    + repeat constructor; vm_compute; discriminate.
    + vm_compute; reflexivity.
  - destruct (Hv (lit "/home/u/sdk") ltac:(vm_compute; reflexivity))
      as (_ & _ & _ & Hdir).
    destruct (Hdir ltac:(vm_compute; reflexivity)) as [_ Hnone].
    apply Hnone. repeat constructor; vm_compute; discriminate.
Defined.

(** C7, as stated, fails: a resolver can raise.  On a POSIX machine the
    input ["~a\0b"] makes [os.path.expanduser] raise
    [ValueError("embedded null byte")], and both resolvers let it
    through. *)
Lemma resolve_executable_can_raise :
  HdcRunner._resolve_executable (machine not_found)
    (lit "~a" ++ [0%N] ++ lit "b")
    = Raise (new_exc ValueError (lit "embedded null byte")) /\
  HvigorRunner._resolve_executable (machine not_found)
    (lit "~a" ++ [0%N] ++ lit "b")
    = Raise (new_exc ValueError (lit "embedded null byte")) /\
  ~ (exists p,
        HdcRunner._resolve_executable (machine not_found)
          (lit "~a" ++ [0%N] ++ lit "b") = Return p).
Proof.
  split; [vm_compute; reflexivity|]. split; [vm_compute; reflexivity|].
  intros [p H]. vm_compute in H. discriminate.
Qed.

(** ** The runners *)

Section Runners.

Variable w : os.

Lemma subclass_user n b d :
  cls_eqb d (UserClass n b) = false ->
  issubclass (UserClass n b) d = issubclass b d.
Proof. unfold issubclass. simpl. intros ->. reflexivity. Qed.

(** No class derives from both [FileNotFoundError] and
    [TimeoutExpired]. *)
Lemma file_not_found_is_no_timeout c :
  issubclass c FileNotFoundError = true ->
  issubclass c TimeoutExpired = false.
Proof.
  induction c; try (vm_compute; congruence).
  rewrite !subclass_user by reflexivity. assumption.
Qed.

Lemma file_not_found_is_os_error c :
  issubclass c FileNotFoundError = true ->
  issubclass c EnvironmentError = true.
Proof.
  induction c; try (vm_compute; congruence).
  rewrite !subclass_user by reflexivity. assumption.
Qed.

(** When the exception of a timed-out process carries text, or no
    output at all, each [run] returns the result with the sentinel. *)
Lemma hdc_run_timeout_text exe args device timeout env max_output_lines
    exc out err :
  subprocess_run w (HdcRunner.argv exe device args) None timeout
    (final_env w env) = Raise exc ->
  isinstance exc TimeoutExpired = true ->
  or_default (exc_stdout exc) [] = Str out ->
  or_default (exc_stderr exc) (lit "timeout waiting for hdc") = Str err ->
  snd (HdcRunner.run w exe args device timeout env max_output_lines) =
    Return (HdcRunner.mkHdcResult (HdcRunner.argv exe device args)
              (Str (HdcRunner._truncate_output out max_output_lines))
              (Str (HdcRunner._truncate_output err max_output_lines))
              (-1) true).
Proof.
  intros Hrun Hto Hout Herr. unfold HdcRunner.run. cbv zeta.
  rewrite Hrun, Hto, Hout, Herr. reflexivity.
Qed.

Lemma hvigor_run_timeout_text exe args project_dir timeout env
    max_output_lines d exc out err :
  expand w project_dir = Return d ->
  project_dir <> [] ->
  path_isdir w d = true ->
  subprocess_run w (HvigorRunner.argv exe args) (Some d) timeout
    (final_env w env) = Raise exc ->
  isinstance exc TimeoutExpired = true ->
  or_default (exc_stdout exc) [] = Str out ->
  or_default (exc_stderr exc) (lit "timeout waiting for hvigorw") = Str err ->
  HvigorRunner.run w exe args project_dir timeout env max_output_lines =
    Return (HvigorRunner.mkHvigorResult (HvigorRunner.argv exe args) d
              (Str (HvigorRunner._truncate_output out max_output_lines))
              (Str (HvigorRunner._truncate_output err max_output_lines))
              (-1) true).
Proof.
  intros Hexp Hne Hdir Hrun Hto Hout Herr. unfold HvigorRunner.run.
  cbv zeta. rewrite Hexp.
  destruct project_dir as [|c p]; [contradiction|].
  rewrite Hdir. simpl negb. cbv iota.
  rewrite Hrun, Hto, Hout, Herr. reflexivity.
Qed.

(** Every result that says [timed_out] carries the sentinel exit code. *)
Lemma timed_out_has_sentinel exe args device project_dir timeout env
    max_output_lines :
  (forall r,
      snd (HdcRunner.run w exe args device timeout env max_output_lines)
        = Return r ->
      HdcRunner.timed_out r = true -> HdcRunner.returncode r = -1) /\
  (forall r,
      HvigorRunner.run w exe args project_dir timeout env max_output_lines
        = Return r ->
      HvigorRunner.timed_out r = true -> HvigorRunner.returncode r = -1).
Proof.
  split.
  - intros r. unfold HdcRunner.run. cbv zeta.
    destruct (subprocess_run w _ None timeout _) as [cp|exc].
    + simpl. intros [= <-]. discriminate.
    + destruct (isinstance exc TimeoutExpired).
      * simpl.
        destruct (HdcRunner.call_truncate_output _ _); [|discriminate].
        destruct (HdcRunner.call_truncate_output _ _); [|discriminate].
        intros [= <-]. reflexivity.
      * destruct (isinstance exc FileNotFoundError); [discriminate|].
        destruct (isinstance exc Exception); discriminate.
  - intros r. unfold HvigorRunner.run. cbv zeta.
    destruct (expand w project_dir) as [d|e]; [|discriminate].
    destruct project_dir as [|c p]; [discriminate|].
    destruct (negb _); [discriminate|].
    destruct (subprocess_run w _ _ timeout _) as [cp|exc].
    + intros [= <-]. discriminate.
    + destruct (isinstance exc TimeoutExpired).
      * destruct (HvigorRunner.call_truncate_output _ _); [|discriminate].
        destruct (HvigorRunner.call_truncate_output _ _); [|discriminate].
        intros [= <-]. reflexivity.
      * destruct (isinstance exc FileNotFoundError); discriminate.
Qed.

(** C4 (as amended).  When [subprocess.run] raises [FileNotFoundError],
    each [run] raises, and returns no result: the exception is a
    [RuntimeError] raised from the original one, its message names the
    resolved executable, and [RuntimeError] is not an
    [EnvironmentError] ([OSError]) class. *)
Theorem run_executable_not_found exe args device project_dir timeout env
    max_output_lines :
  (forall exc,
      subprocess_run w (HdcRunner.argv exe device args) None timeout
        (final_env w env) = Raise exc ->
      isinstance exc FileNotFoundError = true ->
      snd (HdcRunner.run w exe args device timeout env max_output_lines) =
        Raise (new_exc_from RuntimeError
                 (lit "Unable to execute '" ++ exe
                    ++ lit "'. Ensure hdc is installed and on PATH.")
                 exc)) /\
  (forall exc d,
      expand w project_dir = Return d ->
      project_dir <> [] ->
      path_isdir w d = true ->
      subprocess_run w (HvigorRunner.argv exe args) (Some d) timeout
        (final_env w env) = Raise exc ->
      isinstance exc FileNotFoundError = true ->
      HvigorRunner.run w exe args project_dir timeout env max_output_lines =
        Raise (new_exc_from RuntimeError
                 (lit "Unable to execute '" ++ exe
                    ++ lit "'. Ensure hvigorw exists in the project "
                    ++ lit "or set HVIGORW_PATH to the wrapper path.")
                 exc)) /\
  issubclass RuntimeError EnvironmentError = false.
Proof.
  repeat split.
  - intros exc Hrun Hnf. unfold HdcRunner.run. cbv zeta.
    rewrite Hrun. unfold isinstance in *.
    rewrite (file_not_found_is_no_timeout _ Hnf), Hnf. reflexivity.
  - intros exc d Hexp Hne Hdir Hrun Hnf. unfold HvigorRunner.run. cbv zeta.
    rewrite Hexp. destruct project_dir as [|c p]; [contradiction|].
    rewrite Hdir. simpl negb. cbv iota. rewrite Hrun. unfold isinstance in *.
    rewrite (file_not_found_is_no_timeout _ Hnf), Hnf. reflexivity.
Qed.

End Runners.

(** C2, at the input where the code departs from it.  A process that wrote
    three lines (101 lines for hvigorw, whose default bound is 100) and
    then outlived the timeout makes [subprocess.run] raise
    [TimeoutExpired] with the captured output as [bytes]; truncating it
    joins [bytes] lines into a [str], so each [run] raises [TypeError]
    where the claim has it return a result with [returncode = -1]. *)
Theorem run_timeout_with_captured_bytes_raises :
  snd (HdcRunner.run
         (machine (times_out (Some (Bytes (written ["one"; "two"; "three"])))
                             None))
         (lit "hdc") [lit "shell"; lit "ls"] None None None 2)
    = Raise (new_exc TypeError
               (lit "sequence item 0: expected str instance, bytes found")) /\
  HvigorRunner.run
      (machine (times_out (Some (Bytes (written (repeat "> hvigor" 101))))
                          None))
      (lit "./hvigorw") [lit "assembleHap"] (lit "~/proj") None None 100
    = Raise (new_exc TypeError
               (lit "sequence item 0: expected str instance, bytes found")).
Proof. split; vm_compute; reflexivity. Qed.

(** The same processes on a platform that hands over decoded text come
    back as results with the sentinel. *)
Lemma run_timeout_with_text_examples :
  snd (HdcRunner.run
         (machine (times_out (Some (Str (text ["one"; "two"; "three"; ""])))
                             None))
         (lit "hdc") [lit "shell"; lit "ls"] (Some (lit "dev1")) None None 2)
    = Return (HdcRunner.mkHdcResult
                [lit "hdc"; lit "-t"; lit "dev1"; lit "shell"; lit "ls"]
                (Str (text ["[Output truncated: showing last 2 of 3 lines]";
                            "two"; "three"]))
                (Str (lit "timeout waiting for hdc")) (-1) true) /\
  HvigorRunner.run (machine (times_out None None)) (lit "./hvigorw")
      [lit "clean"] (lit "~/proj") None None 100
    = Return (HvigorRunner.mkHvigorResult [lit "./hvigorw"; lit "clean"]
                (lit "/home/u/proj") (Str [])
                (Str (lit "timeout waiting for hvigorw")) (-1) true).
Proof.
  split.
  - etransitivity;
      [ eapply (hdc_run_timeout_text (machine (times_out _ _)));
        vm_compute; reflexivity
      | vm_compute; reflexivity ].
  - etransitivity;
      [ eapply (hvigor_run_timeout_text (machine (times_out _ _)));
        vm_compute; (reflexivity || discriminate)
      | vm_compute; reflexivity ].
Defined.

Lemma run_executable_not_found_witness :
  snd (HdcRunner.run (machine not_found) (lit "/opt/sdk/hdc")
         [lit "list"; lit "targets"] None None None 500)
    = Raise (new_exc_from RuntimeError
               (lit "Unable to execute '/opt/sdk/hdc'. Ensure hdc is installed and on PATH.")
               (new_exc FileNotFoundError
                  (lit "[Errno 2] No such file or directory"))) /\
  HvigorRunner.run (machine not_found) (lit "./hvigorw") [lit "clean"]
      (lit "~/proj") None None 100
    = Raise (new_exc_from RuntimeError
               (lit "Unable to execute './hvigorw'. Ensure hvigorw exists in the project or set HVIGORW_PATH to the wrapper path.")
               (new_exc FileNotFoundError
                  (lit "[Errno 2] No such file or directory"))).
Proof.
  split.
  - destruct (run_executable_not_found (machine not_found) (lit "/opt/sdk/hdc")
                [lit "list"; lit "targets"] None (lit "~/proj") None None 500)
      as (H & _).
    etransitivity; [apply H; vm_compute; reflexivity | vm_compute; reflexivity].
  - destruct (run_executable_not_found (machine not_found) (lit "./hvigorw")
                [lit "clean"] None (lit "~/proj") None None 100)
      as (_ & H & _).
    etransitivity;
      [eapply (H _ (lit "/home/u/proj"));
       vm_compute; (reflexivity || discriminate)
      | vm_compute; reflexivity].
Defined.

(** C4, as stated, fails: with the executable missing, what [run] raises is
    not an instance of [EnvironmentError]. *)
Lemma run_not_found_is_not_environment_error :
  ~ (exists e,
        snd (HdcRunner.run (machine not_found) (lit "/opt/sdk/hdc")
               [lit "list"; lit "targets"] None None None 500) = Raise e /\
        isinstance e EnvironmentError = true).
Proof.
  intros [e [H E]]. vm_compute in H. injection H as <-.
  vm_compute in E. discriminate.
Qed.

(** ** The call-instrumentation wrapper *)

Section SafeTool.

Import ServiceBootstrap.

Variable rt : runtime.

(** C3 (as amended).  When the wrapped operation raises an exception
    that is an instance of [Exception], the wrapper returns (it does not
    raise) the dictionary with [success = False], [error = str(exc)],
    [error_type] the name of the exception's class, [tool] the name of
    the operation, [log_file] the log file path and [traceback] the
    formatted stack trace; an exception that is not an instance of
    [Exception] leaves the wrapper as it is. *)
Theorem wrapped_isolates_exceptions func_name (func : tool) args kw
    func_log exc :
  func args kw = (func_log, Raise exc) ->
  (isinstance exc Exception = true ->
   snd (wrapped rt func_name func args kw) =
     Return (VDict [ (lit "success", VBool false);
                     (lit "error", VStr (exc_str exc));
                     (lit "error_type", VStr (cls_name (exc_class exc)));
                     (lit "tool", VStr func_name);
                     (lit "log_file", VStr (log_file_path rt));
                     (lit "traceback", VStr (format_exc rt exc)) ])) /\
  (isinstance exc Exception = false ->
   snd (wrapped rt func_name func args kw) = Raise exc).
Proof.
  intros Hf. unfold wrapped. cbv zeta. rewrite Hf.
  split; intros He; rewrite He; reflexivity.
Qed.

(** C10.  When the wrapped operation returns a value, the wrapper
    returns that very value, whatever it is and however it is
    classified; apart from the log records, nothing else is produced. *)
Theorem wrapped_passes_result_through func_name (func : tool) args kw
    func_log value :
  func args kw = (func_log, Return value) ->
  snd (wrapped rt func_name func args kw) = Return value.
Proof.
  intros Hf. unfold wrapped. cbv zeta. rewrite Hf.
  destruct (classify rt value) as [status success]. reflexivity.
Qed.

End SafeTool.

Lemma wrapped_isolates_exceptions_witness :
  snd (ServiceBootstrap.wrapped runtime0 (lit "shell") bad_arg_tool []
         [(lit "command", VStr (lit "ls"))])
    = Return (VDict
                [ (lit "success", VBool false);
                  (lit "error", VStr (lit "bad arg"));
                  (lit "error_type", VStr (lit "ValueError"));
                  (lit "tool", VStr (lit "shell"));
                  (lit "log_file",
                   VStr (lit "/home/u/.cache/harmony-tools/harmony-tools.log"));
                  (lit "traceback",
                   VStr (lit "Traceback (most recent call last): ...")) ]).
Proof.
  destruct (wrapped_isolates_exceptions runtime0 (lit "shell") bad_arg_tool []
              [(lit "command", VStr (lit "ls"))] []
              (new_exc ValueError (lit "bad arg")) eq_refl) as [H _].
  etransitivity; [apply H; vm_compute; reflexivity | vm_compute; reflexivity].
Defined.

(** C3, as stated, fails: an operation that raises [KeyboardInterrupt],
    which is not an [Exception], is not turned into a payload; the
    exception leaves the wrapper. *)
Lemma wrapped_lets_base_exceptions_through :
  snd (ServiceBootstrap.wrapped runtime0 (lit "shell") interrupted_tool []
         [(lit "command", VStr (lit "ls"))])
    = Raise (new_exc KeyboardInterrupt []) /\
  ~ (exists payload,
        snd (ServiceBootstrap.wrapped runtime0 (lit "shell") interrupted_tool
               [] [(lit "command", VStr (lit "ls"))]) = Return payload).
Proof.
  split; [vm_compute; reflexivity|].
  intros [payload H]. vm_compute in H. discriminate.
Qed.

Lemma wrapped_passes_result_through_witness :
  snd (ServiceBootstrap.wrapped runtime0 (lit "hvigor_clean") failed_build_tool
         [] [(lit "project_dir", VStr (lit "~/proj"))])
    = Return (VDict [ (lit "returncode", VInt 3);
                      (lit "stderr", VStr (lit "BUILD FAILED")) ]) /\
  snd (ServiceBootstrap.wrapped runtime0 (lit "version") plain_text_tool [] [])
    = Return (VStr (lit "5.0.1")).
Proof.
  split.
  - apply (wrapped_passes_result_through runtime0 (lit "hvigor_clean")
             failed_build_tool [] [(lit "project_dir", VStr (lit "~/proj"))]
             []).
    vm_compute. reflexivity.
  - apply (wrapped_passes_result_through runtime0 (lit "version")
             plain_text_tool [] [] []).
    vm_compute. reflexivity.
Defined.

(** ** Quoting and re-tokenizing a command line *)

Section ShlexRoundTrip.

Import Shlex.

Lemma char_in_forallb (P : char -> bool) c l :
  forallb P l = true -> char_in c l = true -> P c = true.
Proof.
  induction l as [|d l IH]; simpl; [discriminate|].
  intros H Hc. apply andb_true_iff in H as [Hd Hl].
  apply orb_true_iff in Hc as [Hc|Hc]; [|exact (IH Hl Hc)].
  apply N.eqb_eq in Hc. subst. exact Hd.
Qed.

Lemma safe_is_ordinary c : char_in c safe_chars = true -> ordinary c = true.
Proof. apply char_in_forallb. vm_compute. reflexivity. Qed.

Lemma ordinary_facts c :
  ordinary c = true ->
  char_in c whitespace = false /\ char_in c escape = false /\
  char_in c quotes = false.
Proof.
  unfold ordinary. intros H.
  apply andb_true_iff in H as [H Hq]. apply andb_true_iff in H as [Hw He].
  apply negb_true_iff in Hq, Hw, He. auto.
Qed.

Lemma step_word_ordinary c quoted esc tok rest :
  ordinary c = true ->
  read_token_loop InWord quoted esc tok (c :: rest) =
    read_token_loop InWord quoted esc (tok ++ [c]) rest.
Proof.
  intros H. destruct (ordinary_facts c H) as (Hw & He & Hq).
  cbn [read_token_loop]. rewrite Hw, Hq, He. reflexivity.
Qed.

Lemma step_start_ordinary c quoted esc tok rest :
  ordinary c = true ->
  read_token_loop InWhitespace quoted esc tok (c :: rest) =
    read_token_loop InWord quoted esc [c] rest.
Proof.
  intros H. destruct (ordinary_facts c H) as (Hw & He & Hq).
  cbn [read_token_loop]. rewrite Hw, Hq, He.
  destruct (char_in c wordchars); reflexivity.
Qed.

(** A run of ordinary characters is appended to the token. *)
Lemma word_loop s : forall quoted esc tok rest,
  forallb ordinary s = true ->
  read_token_loop InWord quoted esc tok (s ++ rest) =
    read_token_loop InWord quoted esc (tok ++ s) rest.
Proof.
  induction s as [|c s IH]; intros quoted esc tok rest H.
  - rewrite app_nil_r. reflexivity.
  - simpl in H. apply andb_true_iff in H as [Hc Hs].
    change ((c :: s) ++ rest) with (c :: (s ++ rest)).
    rewrite (step_word_ordinary _ _ _ _ _ Hc), (IH _ _ _ _ Hs).
    rewrite <- app_assoc. reflexivity.
Qed.

(** The end of a token: end of input, or the separating space. *)
Lemma word_end_eof quoted esc tok :
  nonempty tok || quoted = true ->
  read_token_loop InWord quoted esc tok [] =
    Return (Some tok, Lexer AtEOF []).
Proof.
  intros H. cbn [read_token_loop].
  destruct tok; destruct quoted; try discriminate; reflexivity.
Qed.

Lemma word_end_space quoted esc tok rest :
  nonempty tok || quoted = true ->
  read_token_loop InWord quoted esc tok (SP :: rest) =
    Return (Some tok, Lexer InWhitespace rest).
Proof.
  intros H. cbn [read_token_loop].
  change (char_in SP whitespace) with true. cbv iota. rewrite H.
  destruct tok; destruct quoted; try discriminate; reflexivity.
Qed.

Lemma step_quote_other c quoted esc tok rest :
  eqc c SQUOTE = false ->
  read_token_loop (InQuote SQUOTE) quoted esc tok (c :: rest) =
    read_token_loop (InQuote SQUOTE) true esc (tok ++ [c]) rest.
Proof.
  intros H. cbn [read_token_loop]. rewrite H.
  change (char_in SQUOTE escapedquotes) with false.
  rewrite andb_false_r. reflexivity.
Qed.

Lemma step_quote_quote quoted esc tok rest :
  read_token_loop (InQuote SQUOTE) quoted esc tok
    ([SQUOTE; DQUOTE; SQUOTE; DQUOTE; SQUOTE] ++ rest) =
    read_token_loop (InQuote SQUOTE) true esc (tok ++ [SQUOTE]) rest.
Proof. reflexivity. Qed.

(** Inside single quotes the replaced text gives back the original. *)
Lemma quote_loop p : forall quoted esc tok rest,
  read_token_loop (InQuote SQUOTE) quoted esc tok
    (replace_char SQUOTE [SQUOTE; DQUOTE; SQUOTE; DQUOTE; SQUOTE] p
       ++ SQUOTE :: rest) =
    read_token_loop InWord true esc (tok ++ p) rest.
Proof.
  induction p as [|c p IH]; intros quoted esc tok rest.
  - rewrite app_nil_r. reflexivity.
  - unfold replace_char. cbn [flat_map]. fold (replace_char SQUOTE
      [SQUOTE; DQUOTE; SQUOTE; DQUOTE; SQUOTE] p).
    replace (tok ++ c :: p) with ((tok ++ [c]) ++ p)
      by (rewrite <- app_assoc; reflexivity).
    destruct (eqc c SQUOTE) eqn:Hc.
    + apply N.eqb_eq in Hc. subst c.
      rewrite <- app_assoc, step_quote_quote. apply IH.
    + rewrite <- app_assoc. cbn [app].
      rewrite (step_quote_other _ _ _ _ _ Hc). apply IH.
Qed.

Lemma safe_all_ordinary s :
  _find_unsafe s = false -> forallb ordinary s = true.
Proof.
  unfold _find_unsafe. induction s as [|c s IH]; [reflexivity|].
  simpl. intros H. apply orb_false_iff in H as [Hc Hs].
  apply negb_false_iff in Hc.
  rewrite (safe_is_ordinary _ Hc), (IH Hs). reflexivity.
Qed.

(** Reading one quoted element up to the end of input or to the space
    that follows it. *)
Lemma read_quoted_element p :
  read_token (Lexer InWhitespace (quote p)) =
    Return (Some p, Lexer AtEOF []) /\
  forall rest,
    read_token (Lexer InWhitespace (quote p ++ SP :: rest)) =
      Return (Some p, Lexer InWhitespace rest).
Proof.
  unfold read_token. cbn [state instream].
  assert (Q : forall tail,
             (forall quoted esc tok,
                 nonempty tok || quoted = true ->
                 read_token_loop InWord quoted esc tok tail =
                   Return (Some tok, Lexer (match tail with
                                            | [] => AtEOF
                                            | _ => InWhitespace
                                            end) (List.tl tail))) ->
             read_token_loop InWhitespace false InWhitespace []
               (quote p ++ tail) =
               Return (Some p, Lexer (match tail with
                                      | [] => AtEOF
                                      | _ => InWhitespace
                                      end) (List.tl tail))).
  { intros tail Hend. unfold quote.
    destruct p as [|c p].
    - cbn. apply Hend. reflexivity.
    - destruct (_find_unsafe (c :: p)) eqn:Hu; cbn [negb].
      + change (([SQUOTE] ++ replace_char SQUOTE
                   [SQUOTE; DQUOTE; SQUOTE; DQUOTE; SQUOTE] (c :: p)
                   ++ [SQUOTE]) ++ tail)
          with (SQUOTE :: ((replace_char SQUOTE
                  [SQUOTE; DQUOTE; SQUOTE; DQUOTE; SQUOTE] (c :: p)
                  ++ [SQUOTE]) ++ tail)).
        rewrite <- app_assoc.
        change (read_token_loop InWhitespace false InWhitespace []
                  (SQUOTE :: ?x))
          with (read_token_loop (InQuote SQUOTE) false InWhitespace [] x).
        cbn [app]. rewrite quote_loop. apply Hend. apply orb_true_r.
      + pose proof (safe_all_ordinary _ Hu) as Hall.
        simpl in Hall. apply andb_true_iff in Hall as [Hc Hp].
        change ((c :: p) ++ tail) with (c :: (p ++ tail)).
        rewrite (step_start_ordinary _ _ _ _ _ Hc), (word_loop _ _ _ _ _ Hp).
        apply Hend. reflexivity. }
  split.
  - rewrite <- (app_nil_r (quote p)). apply (Q []).
    intros. apply word_end_eof. assumption.
  - intros rest. apply (Q (SP :: rest)).
    intros. apply word_end_space. assumption.
Qed.

Lemma quote_nonempty p : (1 <= length (quote p))%nat.
Proof.
  unfold quote. destruct p as [|c p]; [simpl; lia|].
  destruct (negb _); simpl; lia.
Qed.

Lemma joined_length (argv : list str) :
  (length argv <= length (join [SP] (map quote argv)))%nat.
Proof.
  induction argv as [|p ps IH]; [simpl; lia|].
  pose proof (quote_nonempty p).
  destruct ps as [|p2 ps]; [simpl in *; lia|].
  change (join [SP] (map quote (p :: p2 :: ps)))
    with (quote p ++ SP :: join [SP] (map quote (p2 :: ps))).
  rewrite length_app. simpl length in *. lia.
Qed.

(** With fuel beyond the number of elements, the tokens of the joined
    quoted elements are the elements. *)
Lemma tokens_of_joined (argv : list str) : forall fuel,
  (length argv < fuel)%nat ->
  tokens fuel (Lexer InWhitespace (join [SP] (map quote argv))) =
    Some (Return argv).
Proof.
  induction argv as [|p ps IH]; intros fuel Hf.
  - destruct fuel; [lia|]. reflexivity.
  - destruct fuel as [|fuel]; [simpl in Hf; lia|].
    destruct (read_quoted_element p) as [Hlast Hmore].
    destruct ps as [|p2 ps].
    + cbn [map join tokens]. rewrite Hlast.
      destruct fuel; [simpl in Hf; lia|]. reflexivity.
    + change (join [SP] (map quote (p :: p2 :: ps)))
        with (quote p ++ SP :: join [SP] (map quote (p2 :: ps))).
      cbn [tokens]. rewrite Hmore.
      rewrite IH by (simpl in *; lia). reflexivity.
Qed.

Lemma split_of_joined (argv : list str) :
  split (join (lit " ") (map quote argv)) = Some (Return argv).
Proof.
  unfold split. change (lit " ") with [SP].
  apply tokens_of_joined. pose proof (joined_length argv). lia.
Qed.

(** C6.  For the [command] of any result of either runner, splitting
    its [command_line] with [shlex.split], directly or through
    [split_arguments], gives back exactly [command]; the command line
    of [["shell", "ls -la", "a b"]] is [shell 'ls -la' 'a b'] and splits
    into the same three elements. *)
Theorem command_line_round_trip :
  (forall r : HdcRunner.HdcResult,
      split (HdcRunner.command_line r) = Some (Return (HdcRunner.command r)) /\
      ServiceBootstrap.split_arguments (HdcRunner.command_line r)
        = Some (Return (HdcRunner.command r))) /\
  (forall r : HvigorRunner.HvigorResult,
      split (HvigorRunner.command_line r)
        = Some (Return (HvigorRunner.command r)) /\
      ServiceBootstrap.split_arguments (HvigorRunner.command_line r)
        = Some (Return (HvigorRunner.command r))) /\
  (let r := HdcRunner.mkHdcResult [lit "shell"; lit "ls -la"; lit "a b"]
              (Str []) (Str []) 0 false in
   HdcRunner.command_line r = lit "shell 'ls -la' 'a b'" /\
   split (HdcRunner.command_line r)
     = Some (Return [lit "shell"; lit "ls -la"; lit "a b"])).
Proof.
  split; [|split].
  - intros r. unfold ServiceBootstrap.split_arguments, HdcRunner.command_line.
    rewrite split_of_joined. split; reflexivity.
  - intros r.
    unfold ServiceBootstrap.split_arguments, HvigorRunner.command_line.
    rewrite split_of_joined. split; reflexivity.
  - split; vm_compute; reflexivity.
Qed.

End ShlexRoundTrip.

(** * Further properties of the code *)

(** ** Stripping colour codes *)

Section StripAnsi.

Import AnsiPattern.

Lemma skip_params_length s : (length (skip_params s) <= length s)%nat.
Proof.
  induction s as [|c s IH]; simpl; [lia|].
  destruct (is_param c); simpl; lia.
Qed.

Lemma match_end_shorter s rest :
  match_end s = Some rest -> (length rest < length s)%nat.
Proof.
  destruct s as [|e [|b s]]; simpl; try discriminate.
  destruct (eqc e ESC && eqc b 91%N); [|discriminate].
  pose proof (skip_params_length s) as H.
  destruct (skip_params s) as [|m r]; [discriminate|].
  destruct (eqc m 109%N); [|discriminate].
  intros [= <-]. simpl in H. lia.
Qed.

(** Fuel beyond the length of the text changes nothing. *)
Lemma sub_empty_fuel f1 : forall f2 text,
  (length text <= f1)%nat -> (length text <= f2)%nat ->
  sub_empty f1 text = sub_empty f2 text.
Proof.
  induction f1 as [|f1 IH]; intros f2 text H1 H2.
  - destruct text; [|simpl in H1; lia]. destruct f2; reflexivity.
  - destruct text as [|c t]; [destruct f2; reflexivity|].
    destruct f2 as [|f2]; [simpl in H2; lia|].
    cbn [sub_empty].
    destruct (match_end (c :: t)) as [rest|] eqn:E.
    + apply match_end_shorter in E. simpl in *. apply IH; lia.
    + f_equal. simpl in *. apply IH; lia.
Qed.

(** The equation [pattern.sub] obeys, free of fuel. *)
Lemma strip_cons c t :
  HdcRunner._strip_ansi_codes (c :: t) =
    match match_end (c :: t) with
    | Some rest => HdcRunner._strip_ansi_codes rest
    | None => c :: HdcRunner._strip_ansi_codes t
    end.
Proof.
  unfold HdcRunner._strip_ansi_codes. cbn [length sub_empty].
  destruct (match_end (c :: t)) as [rest|] eqn:E.
  - apply match_end_shorter in E. simpl in E. apply sub_empty_fuel; lia.
  - reflexivity.
Qed.

Lemma strippers_agree :
  HvigorRunner._strip_ansi_codes = HdcRunner._strip_ansi_codes.
Proof. reflexivity. Qed.

Lemma match_end_not_esc c t : eqc c ESC = false -> match_end (c :: t) = None.
Proof. intros H. destruct t; simpl; [reflexivity|]. rewrite H. reflexivity. Qed.

Lemma strip_plain s : no_esc s = true -> HdcRunner._strip_ansi_codes s = s.
Proof.
  induction s as [|c s IH]; intros H; [reflexivity|].
  simpl in H. apply andb_true_iff in H as [Hc Hs]. apply negb_true_iff in Hc.
  rewrite strip_cons, (match_end_not_esc _ _ Hc), (IH Hs). reflexivity.
Qed.

Lemma strip_length_upto n : forall s,
  (length s <= n)%nat ->
  (length (HdcRunner._strip_ansi_codes s) <= length s)%nat.
Proof.
  induction n as [|n IH]; intros s Hn.
  - destruct s; [simpl; lia | simpl in Hn; lia].
  - destruct s as [|c t]; [simpl; lia|].
    rewrite strip_cons.
    destruct (match_end (c :: t)) as [rest|] eqn:E.
    + apply match_end_shorter in E. simpl in *.
      pose proof (IH rest ltac:(lia)). lia.
    + simpl in *. pose proof (IH t ltac:(lia)). lia.
Qed.

(** A text without the escape character passes unchanged, and no text
    comes out longer than it went in. *)
Theorem strip_ansi_keeps_plain_text s :
  (no_esc s = true ->
   HdcRunner._strip_ansi_codes s = s /\ HvigorRunner._strip_ansi_codes s = s) /\
  (length (HdcRunner._strip_ansi_codes s) <= length s)%nat /\
  (length (HvigorRunner._strip_ansi_codes s) <= length s)%nat.
Proof.
  rewrite strippers_agree. repeat split.
  - apply strip_plain; assumption.
  - apply strip_plain; assumption.
  - apply (strip_length_upto (length s)). lia.
  - apply (strip_length_upto (length s)). lia.
Qed.

Lemma strip_ansi_keeps_plain_text_witness :
  no_esc (lit "BUILD SUCCESSFUL in 3 s") = true /\
  HdcRunner._strip_ansi_codes (lit "BUILD SUCCESSFUL in 3 s")
    = lit "BUILD SUCCESSFUL in 3 s".
Proof.
  split; [reflexivity|].
  destruct (strip_ansi_keeps_plain_text (lit "BUILD SUCCESSFUL in 3 s"))
    as [H _].
  apply H. reflexivity.
Defined.

Lemma skip_params_run params tail :
  all_params params = true ->
  skip_params (params ++ 109%N :: tail) = 109%N :: tail.
Proof.
  induction params as [|c ps IH]; intros H; [reflexivity|].
  simpl in H. apply andb_true_iff in H as [Hc Hp].
  simpl. rewrite Hc. apply IH, Hp.
Qed.

Lemma match_end_sgr params tail :
  all_params params = true -> match_end (sgr params ++ tail) = Some tail.
Proof.
  intros H. unfold sgr. rewrite <- !app_assoc. cbn [app match_end].
  change (eqc ESC ESC && eqc 91%N 91%N) with true. cbv iota.
  rewrite (skip_params_run _ _ H). reflexivity.
Qed.

Lemma strip_sgr params tail :
  all_params params = true ->
  HdcRunner._strip_ansi_codes (sgr params ++ tail)
    = HdcRunner._strip_ansi_codes tail.
Proof.
  intros H. pose proof (match_end_sgr params tail H) as E.
  unfold sgr in *. rewrite <- !app_assoc in *. cbn [app] in *.
  rewrite strip_cons, E. reflexivity.
Qed.

Lemma strip_plain_prefix a tail :
  no_esc a = true ->
  HdcRunner._strip_ansi_codes (a ++ tail)
    = a ++ HdcRunner._strip_ansi_codes tail.
Proof.
  induction a as [|c a IH]; intros H; [reflexivity|].
  simpl in H. apply andb_true_iff in H as [Hc Ha]. apply negb_true_iff in Hc.
  cbn [app]. rewrite strip_cons, (match_end_not_esc _ _ Hc), (IH Ha).
  reflexivity.
Qed.

(** An escape sequence [ESC [ params m] that follows text free of [ESC] is
    removed, the text before it is kept, and stripping goes on behind
    it. *)
Theorem strip_ansi_removes_sequence a params b :
  no_esc a = true -> all_params params = true ->
  HdcRunner._strip_ansi_codes (a ++ sgr params ++ b)
    = a ++ HdcRunner._strip_ansi_codes b /\
  HvigorRunner._strip_ansi_codes (a ++ sgr params ++ b)
    = a ++ HvigorRunner._strip_ansi_codes b.
Proof.
  intros Ha Hp. rewrite strippers_agree.
  rewrite (strip_plain_prefix _ _ Ha), (strip_sgr _ _ Hp). split; reflexivity.
Qed.

Lemma strip_ansi_removes_sequence_witness :
  no_esc (lit "ok ") = true /\ all_params (lit "1;32") = true /\
  HdcRunner._strip_ansi_codes (lit "ok " ++ sgr (lit "1;32") ++ lit "done")
    = lit "ok done".
Proof.
  split; [reflexivity|]. split; [reflexivity|].
  etransitivity;
    [ apply (strip_ansi_removes_sequence (lit "ok ") (lit "1;32") (lit "done"));
      reflexivity
    | vm_compute; reflexivity ].
Defined.

(** Stripping is not idempotent: when the start [ESC [] of a sequence is
    followed by a whole sequence, removing the inner one leaves the outer
    one assembled, and a second pass removes that too. *)
Theorem strip_ansi_can_leave_a_sequence p q :
  all_params p = true -> all_params q = true ->
  let s := [ESC; 91%N] ++ sgr p ++ q ++ [109%N] in
  HdcRunner._strip_ansi_codes s = sgr q /\
  HdcRunner._strip_ansi_codes (HdcRunner._strip_ansi_codes s) = [] /\
  HdcRunner._strip_ansi_codes (HdcRunner._strip_ansi_codes s)
    <> HdcRunner._strip_ansi_codes s.
Proof.
  intros Hp Hq s.
  assert (Hq' : no_esc (q ++ [109%N]) = true).
  { unfold no_esc. rewrite forallb_app. apply andb_true_iff. split; [|reflexivity].
    clear - Hq. induction q as [|c q IH]; [reflexivity|].
    simpl in Hq. apply andb_true_iff in Hq as [Hc Hqs].
    simpl. rewrite (IH Hqs), andb_true_r.
    unfold is_param in Hc. unfold eqc, ESC.
    destruct (N.eqb_spec c 27%N) as [->|]; [discriminate Hc | reflexivity]. }
  assert (E1 : HdcRunner._strip_ansi_codes s = sgr q).
  { unfold s. cbn [app].
    rewrite strip_cons.
    replace (match_end (ESC :: 91%N :: sgr p ++ q ++ [109%N])) with (@None str)
      by reflexivity.
    rewrite strip_cons, (match_end_not_esc 91%N _ eq_refl).
    rewrite (strip_sgr _ _ Hp), (strip_plain _ Hq'). reflexivity. }
  assert (E2 : HdcRunner._strip_ansi_codes (sgr q) = []).
  { rewrite <- (app_nil_r (sgr q)), (strip_sgr _ _ Hq). reflexivity. }
  rewrite E1, E2. repeat split. discriminate.
Qed.

Lemma strip_ansi_can_leave_a_sequence_witness :
  all_params (lit "0") = true /\ all_params (lit "31") = true /\
  HdcRunner._strip_ansi_codes
    ([ESC; 91%N] ++ sgr (lit "0") ++ lit "31" ++ [109%N]) = sgr (lit "31").
Proof.
  split; [reflexivity|]. split; [reflexivity|].
  destruct (strip_ansi_can_leave_a_sequence (lit "0") (lit "31")
              eq_refl eq_refl) as [H _].
  exact H.
Defined.

End StripAnsi.

(** ** More on the truncator and the runners *)

Section RunnerInvariants.

Variable w : os.

Lemma truncate_bounded s m :
  1 <= m -> line_count (HdcRunner._truncate_output s m) <= m + 1.
Proof.
  intros Hm. destruct (Z_le_gt_dec (line_count s) m) as [Hle|Hgt].
  - rewrite (truncate_within s m Hle). lia.
  - destruct (truncate_positive_bound s m Hm) as (_ & _ & _ & H); [lia|].
    exact H.
Qed.

(** For a bound of at least one line and a text with more lines, either
    truncator answers the notice, which states both numbers, followed by
    exactly the last [max_lines] lines of the text; the answer has at most
    [max_lines + 1] lines. *)
Theorem truncate_keeps_last_lines s m :
  1 <= m -> m < line_count s ->
  let kept := skipn (length (splitlines s) - Z.to_nat m) (splitlines s) in
  HdcRunner._truncate_output s m =
    notice m (line_count s) ++ [LF] ++ join [LF] kept /\
  HvigorRunner._truncate_output s m =
    notice m (line_count s) ++ [LF] ++ join [LF] kept /\
  len kept = m /\
  line_count (HdcRunner._truncate_output s m) <= m + 1.
Proof.
  intros Hm Hover kept. rewrite truncators_agree.
  destruct (truncate_positive_bound s m Hm Hover) as (E & K & L & B).
  rewrite K in E, L. fold kept in E, L. auto.
Qed.

(** Every result [HdcRunner.run] returns carries the command it built; if
    it says [timed_out] its exit code is [-1]; otherwise the process
    completed, the exit code is the process's, whatever it is, and
    [stdout] / [stderr] are its truncated outputs, of at most
    [max_output_lines + 1] lines each when the bound is at least 1. *)
Theorem hdc_run_result_invariants exe args device timeout env m r :
  snd (HdcRunner.run w exe args device timeout env m) = Return r ->
  HdcRunner.command r = HdcRunner.argv exe device args /\
  (HdcRunner.timed_out r = true -> HdcRunner.returncode r = -1) /\
  (HdcRunner.timed_out r = false ->
   exists cp,
     subprocess_run w (HdcRunner.argv exe device args) None timeout
       (final_env w env) = Return cp /\
     HdcRunner.returncode r = cp_returncode cp /\
     HdcRunner.stdout r = Str (HdcRunner._truncate_output (cp_stdout cp) m) /\
     HdcRunner.stderr r = Str (HdcRunner._truncate_output (cp_stderr cp) m) /\
     (1 <= m ->
      line_count (HdcRunner._truncate_output (cp_stdout cp) m) <= m + 1 /\
      line_count (HdcRunner._truncate_output (cp_stderr cp) m) <= m + 1)).
Proof.
  unfold HdcRunner.run. cbv zeta.
  destruct (subprocess_run w _ None timeout _) as [cp|exc] eqn:Hrun.
  - simpl. intros [= <-]. simpl. repeat split; try discriminate.
    intros _. exists cp. repeat split; intros; apply truncate_bounded; assumption.
  - destruct (isinstance exc TimeoutExpired).
    + simpl.
      destruct (HdcRunner.call_truncate_output _ _); [|discriminate].
      destruct (HdcRunner.call_truncate_output _ _); [|discriminate].
      intros [= <-]. simpl. repeat split. discriminate.
    + destruct (isinstance exc FileNotFoundError); [discriminate|].
      destruct (isinstance exc Exception); discriminate.
Qed.

(** The same for [HvigorRunner.run], whose results also carry the expanded
    project directory: the expansion returned it, it is a directory, and
    the process ran in it. *)
Theorem hvigor_run_result_invariants exe args project_dir timeout env m r :
  HvigorRunner.run w exe args project_dir timeout env m = Return r ->
  HvigorRunner.command r = HvigorRunner.argv exe args /\
  expand w project_dir = Return (HvigorRunner.cwd r) /\
  path_isdir w (HvigorRunner.cwd r) = true /\
  (HvigorRunner.timed_out r = true -> HvigorRunner.returncode r = -1) /\
  (HvigorRunner.timed_out r = false ->
   exists cp,
     subprocess_run w (HvigorRunner.argv exe args)
       (Some (HvigorRunner.cwd r)) timeout
       (final_env w env) = Return cp /\
     HvigorRunner.returncode r = cp_returncode cp /\
     HvigorRunner.stdout r
       = Str (HvigorRunner._truncate_output (cp_stdout cp) m) /\
     HvigorRunner.stderr r
       = Str (HvigorRunner._truncate_output (cp_stderr cp) m) /\
     (1 <= m ->
      line_count (HvigorRunner._truncate_output (cp_stdout cp) m) <= m + 1 /\
      line_count (HvigorRunner._truncate_output (cp_stderr cp) m) <= m + 1)).
Proof.
  unfold HvigorRunner.run. cbv zeta.
  destruct (expand w project_dir) as [d|e0] eqn:Hexp; [|discriminate].
  destruct project_dir as [|c p]; [discriminate|].
  destruct (path_isdir w _) eqn:Hdir; [|discriminate]. simpl negb. cbv iota.
  destruct (subprocess_run w _ _ timeout _) as [cp|exc] eqn:Hrun.
  - intros [= <-]. simpl. repeat split; try assumption; try discriminate.
    intros _. exists cp. rewrite truncators_agree.
    repeat split; try exact Hrun; intros; apply truncate_bounded; assumption.
  - destruct (isinstance exc TimeoutExpired).
    + destruct (HvigorRunner.call_truncate_output _ _); [|discriminate].
      destruct (HvigorRunner.call_truncate_output _ _); [|discriminate].
      intros [= <-]. simpl. repeat split; try assumption. discriminate.
    + destruct (isinstance exc FileNotFoundError); discriminate.
Qed.

Lemma truncate_bytes_error b m e :
  HdcRunner._truncate_output_bytes b m = Raise e ->
  e = new_exc TypeError
        (lit "sequence item 0: expected str instance, bytes found").
Proof.
  unfold HdcRunner._truncate_output_bytes.
  destruct b; [discriminate|]. cbv zeta.
  destruct (_ <=? _); [discriminate|].
  destruct (slice_from _ _); [discriminate|].
  intros [= <-]. reflexivity.
Qed.

Lemma call_truncate_error o m e :
  HdcRunner.call_truncate_output o m = Raise e ->
  e = new_exc TypeError
        (lit "sequence item 0: expected str instance, bytes found").
Proof.
  destruct o; simpl; [discriminate|]. apply truncate_bytes_error.
Qed.

Lemma call_truncate_agree :
  HvigorRunner.call_truncate_output = HdcRunner.call_truncate_output.
Proof. reflexivity. Qed.

(** What [HdcRunner.run] can raise: the [TypeError] of joining captured
    [bytes] after a timeout, the [RuntimeError] that stands for a missing
    executable, or, unchanged, any other exception of
    [subprocess.run]. *)
Theorem hdc_run_errors exe args device timeout env m e :
  snd (HdcRunner.run w exe args device timeout env m) = Raise e ->
  exists exc,
    subprocess_run w (HdcRunner.argv exe device args) None timeout
      (final_env w env) = Raise exc /\
    ((isinstance exc TimeoutExpired = true /\
      e = new_exc TypeError
            (lit "sequence item 0: expected str instance, bytes found")) \/
     (isinstance exc TimeoutExpired = false /\
      isinstance exc FileNotFoundError = true /\
      e = new_exc_from RuntimeError
            (lit "Unable to execute '" ++ exe
               ++ lit "'. Ensure hdc is installed and on PATH.") exc) \/
     (isinstance exc TimeoutExpired = false /\
      isinstance exc FileNotFoundError = false /\ e = exc)).
Proof.
  unfold HdcRunner.run. cbv zeta.
  destruct (subprocess_run w _ None timeout _) as [cp|exc] eqn:Hrun;
    [intros H; simpl in H; discriminate|].
  intros H. exists exc. split; [reflexivity|].
  destruct (isinstance exc TimeoutExpired).
  - left. split; [reflexivity|]. simpl in H.
    destruct (HdcRunner.call_truncate_output _ _) as [o|e1] eqn:E1.
    + destruct (HdcRunner.call_truncate_output (or_default (exc_stderr exc) _)
                  m) as [o2|e2] eqn:E2; simpl in H; [discriminate|].
      injection H as <-. apply (call_truncate_error _ _ _ E2).
    + simpl in H. injection H as <-. apply (call_truncate_error _ _ _ E1).
  - right. destruct (isinstance exc FileNotFoundError).
    + left. simpl in H. injection H as <-. auto.
    + right. destruct (isinstance exc Exception); simpl in H;
        injection H as <-; auto.
Qed.

End RunnerInvariants.

Lemma truncate_keeps_last_lines_witness :
  1 <= 2 /\ 2 < line_count (text ["a"; "b"; "c"; "d"; "e"]) /\
  HdcRunner._truncate_output (text ["a"; "b"; "c"; "d"; "e"]) 2
    = text ["[Output truncated: showing last 2 of 5 lines]"; "d"; "e"].
Proof.
  assert (H : 2 < line_count (text ["a"; "b"; "c"; "d"; "e"]))
    by (vm_compute; reflexivity).
  split; [lia|]. split; [exact H|].
  destruct (truncate_keeps_last_lines (text ["a"; "b"; "c"; "d"; "e"]) 2
              ltac:(lia) H) as [E _].
  etransitivity; [exact E | vm_compute; reflexivity].
Defined.

Lemma hdc_run_result_invariants_witness :
  snd (HdcRunner.run (machine (completes [] (lit "failed") 3)) (lit "hdc")
         [lit "shell"; lit "false"] None None None 500)
    = Return (HdcRunner.mkHdcResult [lit "hdc"; lit "shell"; lit "false"]
                (Str []) (Str (lit "failed")) 3 false) /\
  exists cp,
    subprocess_run (machine (completes [] (lit "failed") 3))
      (HdcRunner.argv (lit "hdc") None [lit "shell"; lit "false"]) None None
      (final_env (machine (completes [] (lit "failed") 3)) None) = Return cp /\
    3 = cp_returncode cp.
Proof.
  assert (H : snd (HdcRunner.run (machine (completes [] (lit "failed") 3))
                     (lit "hdc") [lit "shell"; lit "false"] None None None 500)
              = Return (HdcRunner.mkHdcResult
                          [lit "hdc"; lit "shell"; lit "false"]
                          (Str []) (Str (lit "failed")) 3 false))
    by (vm_compute; reflexivity).
  split; [exact H|].
  destruct (hdc_run_result_invariants _ _ _ _ _ _ _ _ H) as (_ & _ & G).
  destruct (G eq_refl) as (cp & Hcp & Hrc & _).
  exists cp. split; [exact Hcp | exact Hrc].
Defined.

Lemma hvigor_run_result_invariants_witness :
  HvigorRunner.run (machine (completes (lit "BUILD FAILED") [] 1))
      (lit "./hvigorw") [lit "clean"] (lit "~/proj") None None 100
    = Return (HvigorRunner.mkHvigorResult [lit "./hvigorw"; lit "clean"]
                (lit "/home/u/proj") (Str (lit "BUILD FAILED")) (Str []) 1
                false) /\
  path_isdir (machine (completes (lit "BUILD FAILED") [] 1))
    (lit "/home/u/proj") = true.
Proof.
  assert (H : HvigorRunner.run (machine (completes (lit "BUILD FAILED") [] 1))
                (lit "./hvigorw") [lit "clean"] (lit "~/proj") None None 100
              = Return (HvigorRunner.mkHvigorResult
                          [lit "./hvigorw"; lit "clean"] (lit "/home/u/proj")
                          (Str (lit "BUILD FAILED")) (Str []) 1 false))
    by (vm_compute; reflexivity).
  split; [exact H|].
  destruct (hvigor_run_result_invariants _ _ _ _ _ _ _ _ H) as (_ & _ & G & _).
  exact G.
Defined.

Lemma hdc_run_errors_witness :
  exists exc,
    subprocess_run (machine denied)
      (HdcRunner.argv (lit "/opt/hdc") None [lit "list"]) None None
      (final_env (machine denied) None) = Raise exc /\
    ((isinstance exc TimeoutExpired = true /\
      permission_error
        = new_exc TypeError
            (lit "sequence item 0: expected str instance, bytes found")) \/
     (isinstance exc TimeoutExpired = false /\
      isinstance exc FileNotFoundError = true /\
      permission_error
        = new_exc_from RuntimeError
            (lit "Unable to execute '" ++ lit "/opt/hdc"
               ++ lit "'. Ensure hdc is installed and on PATH.") exc) \/
     (isinstance exc TimeoutExpired = false /\
      isinstance exc FileNotFoundError = false /\ permission_error = exc)).
Proof.
  apply (hdc_run_errors (machine denied) (lit "/opt/hdc") [lit "list"] None
           None None 500 permission_error).
  vm_compute. reflexivity.
Defined.

Section RunnerEdges.

Variable w : os.

(** [HvigorRunner.run] expands and checks the project directory before it
    spawns anything: whatever [subprocess.run] would do, an exception of
    the expansion is raised as it is, and, when the expansion returns, an
    empty [project_dir], or one that does not expand to a directory,
    raises [ValueError]; the second message quotes [project_dir] as it was
    given. *)
Theorem hvigor_run_validates_before_spawning spawn exe args project_dir
    timeout env m :
  (forall e,
      expand w project_dir = Raise e ->
      HvigorRunner.run (with_spawn w spawn) exe args project_dir timeout env m
        = Raise e) /\
  (forall d,
      expand w project_dir = Return d ->
      project_dir = [] ->
      HvigorRunner.run (with_spawn w spawn) exe args project_dir timeout env m
        = Raise (new_exc ValueError
                   (lit "project_dir is required for hvigor builds"))) /\
  (forall d,
      expand w project_dir = Return d ->
      project_dir <> [] ->
      path_isdir w d = false ->
      HvigorRunner.run (with_spawn w spawn) exe args project_dir timeout env m
        = Raise (new_exc ValueError
                   (lit "project_dir '" ++ project_dir
                      ++ lit "' does not exist or is not a directory"))).
Proof.
  assert (Hw : forall p, expand (with_spawn w spawn) p = expand w p)
    by reflexivity.
  repeat split.
  - intros e He. unfold HvigorRunner.run. cbv zeta. rewrite Hw, He.
    reflexivity.
  - intros d Hd ->. unfold HvigorRunner.run. cbv zeta. rewrite Hw, Hd.
    reflexivity.
  - intros d Hd Hne Hdir. unfold HvigorRunner.run. cbv zeta. rewrite Hw, Hd.
    destruct project_dir as [|c p]; [contradiction|].
    change (path_isdir (with_spawn w spawn)) with (path_isdir w).
    rewrite Hdir. reflexivity.
Qed.

(** What [HvigorRunner.run] can raise: whatever the expansion of
    [project_dir] ([os.path.expandvars], then [os.path.expanduser])
    raises, unchanged; or, when the expansion returns, one of the two
    [ValueError]s of the project directory check, the [TypeError] of
    joining captured [bytes] after a timeout, the [RuntimeError] that
    stands for a missing executable, or, unchanged, any other exception
    of [subprocess.run]. *)
Theorem hvigor_run_errors exe args project_dir timeout env m e :
  HvigorRunner.run w exe args project_dir timeout env m = Raise e ->
  expand w project_dir = Raise e \/
  exists d,
    expand w project_dir = Return d /\
    ((project_dir = [] /\
      e = new_exc ValueError
            (lit "project_dir is required for hvigor builds")) \/
     (project_dir <> [] /\
      path_isdir w d = false /\
      e = new_exc ValueError
            (lit "project_dir '" ++ project_dir
               ++ lit "' does not exist or is not a directory")) \/
     (exists exc,
         project_dir <> [] /\
         path_isdir w d = true /\
         subprocess_run w (HvigorRunner.argv exe args) (Some d) timeout
           (final_env w env) = Raise exc /\
         ((isinstance exc TimeoutExpired = true /\
           e = new_exc TypeError
                 (lit "sequence item 0: expected str instance, bytes found"))
          \/
          (isinstance exc TimeoutExpired = false /\
           isinstance exc FileNotFoundError = true /\
           e = new_exc_from RuntimeError
                 (lit "Unable to execute '" ++ exe
                    ++ lit "'. Ensure hvigorw exists in the project "
                    ++ lit "or set HVIGORW_PATH to the wrapper path.") exc) \/
          (isinstance exc TimeoutExpired = false /\
           isinstance exc FileNotFoundError = false /\ e = exc)))).
Proof.
  unfold HvigorRunner.run. cbv zeta.
  destruct (expand w project_dir) as [d|e0] eqn:Hexp.
  2:{ intros [= <-]. left. reflexivity. }
  intros H. right. exists d. split; [reflexivity|].
  destruct project_dir as [|c p].
  { injection H as <-. left. auto. }
  destruct (path_isdir w d) eqn:Hdir; simpl negb in H; cbv iota in H.
  2:{ injection H as <-. right. left. repeat split. discriminate. }
  destruct (subprocess_run w _ _ timeout _) as [cp|exc] eqn:Hrun;
    [discriminate|].
  right. right. exists exc.
  split; [discriminate|]. split; [reflexivity|]. split; [reflexivity|].
  rewrite call_truncate_agree in H.
  destruct (isinstance exc TimeoutExpired).
  - left. split; [reflexivity|].
    destruct (HdcRunner.call_truncate_output (or_default (exc_stdout exc) _) m)
      as [o|e1] eqn:E1.
    + destruct (HdcRunner.call_truncate_output
                  (or_default (exc_stderr exc) _) m) as [o2|e2] eqn:E2;
        [discriminate|].
      injection H as <-. apply (call_truncate_error _ _ _ E2).
    + injection H as <-. apply (call_truncate_error _ _ _ E1).
  - right. destruct (isinstance exc FileNotFoundError).
    + left. injection H as <-. auto.
    + right. injection H as <-. auto.
Qed.

(** [HdcRunner.run] hands the logger a [WARNING] record exactly when the
    process completed with an exit code other than zero. *)
Theorem hdc_run_warns_on_nonzero_exit exe args device timeout env m :
  existsb is_warning
    (fst (HdcRunner.run w exe args device timeout env m)) = true <->
  exists cp,
    subprocess_run w (HdcRunner.argv exe device args) None timeout
      (final_env w env) = Return cp /\
    cp_returncode cp <> 0.
Proof.
  unfold HdcRunner.run. cbv zeta.
  destruct (subprocess_run w _ None timeout _) as [cp|exc].
  - cbn [fst]. rewrite !existsb_app. cbn [existsb is_warning log_level orb].
    destruct (cp_returncode cp =? 0) eqn:Hrc; cbn [negb].
    + apply Z.eqb_eq in Hrc. split; [discriminate|].
      intros (cp' & [= <-] & Hne). contradiction.
    + apply Z.eqb_neq in Hrc. split; [|reflexivity].
      intros _. exists cp. auto.
  - split.
    + intros H. exfalso.
      destruct (isinstance exc TimeoutExpired);
        [|destruct (isinstance exc FileNotFoundError);
          [|destruct (isinstance exc Exception)]];
        cbn in H; discriminate.
    + intros (cp & Hcp & _). discriminate.
Qed.

(** When the process outlived the timeout and the exception carries text,
    or no output at all, each [run] returns the result with exit code
    [-1], [timed_out] set and the truncated text; a missing [stderr]
    becomes the message "timeout waiting for ...". *)
Theorem run_timeout_with_text_returns_sentinel exe args device project_dir
    timeout env m d exc out err :
  isinstance exc TimeoutExpired = true ->
  or_default (exc_stdout exc) [] = Str out ->
  (subprocess_run w (HdcRunner.argv exe device args) None timeout
     (final_env w env) = Raise exc ->
   or_default (exc_stderr exc) (lit "timeout waiting for hdc") = Str err ->
   snd (HdcRunner.run w exe args device timeout env m) =
     Return (HdcRunner.mkHdcResult (HdcRunner.argv exe device args)
               (Str (HdcRunner._truncate_output out m))
               (Str (HdcRunner._truncate_output err m)) (-1) true)) /\
  (expand w project_dir = Return d ->
   project_dir <> [] ->
   path_isdir w d = true ->
   subprocess_run w (HvigorRunner.argv exe args) (Some d) timeout
     (final_env w env) = Raise exc ->
   or_default (exc_stderr exc) (lit "timeout waiting for hvigorw") = Str err ->
   HvigorRunner.run w exe args project_dir timeout env m =
     Return (HvigorRunner.mkHvigorResult (HvigorRunner.argv exe args) d
               (Str (HvigorRunner._truncate_output out m))
               (Str (HvigorRunner._truncate_output err m)) (-1) true)).
Proof.
  intros Hto Hout. split.
  - intros Hrun Herr. apply (hdc_run_timeout_text w) with (exc := exc);
      assumption.
  - intros Hexp Hne Hdir Hrun Herr.
    apply (hvigor_run_timeout_text w) with (exc := exc); assumption.
Qed.

End RunnerEdges.

Lemma hvigor_run_validates_before_spawning_witness :
  HvigorRunner.run (with_spawn (machine not_found) (completes [] [] 0))
      (lit "./hvigorw") [lit "clean"] (lit "~/nowhere") None None 100
    = Raise (new_exc ValueError
               (lit "project_dir '~/nowhere' does not exist or is not a directory")).
Proof.
  destruct (hvigor_run_validates_before_spawning (machine not_found)
              (completes [] [] 0) (lit "./hvigorw") [lit "clean"]
              (lit "~/nowhere") None None 100) as (_ & _ & H).
  etransitivity;
    [ apply (H (lit "/home/u/nowhere"));
      vm_compute; (reflexivity || discriminate)
    | vm_compute; reflexivity ].
Defined.

Lemma hvigor_run_errors_witness :
  HvigorRunner.run (machine denied) (lit "./hvigorw") [lit "clean"]
      (lit "~a" ++ [0%N] ++ lit "b") None None 100
    = Raise (new_exc ValueError (lit "embedded null byte")) /\
  (expand (machine denied) (lit "~a" ++ [0%N] ++ lit "b")
     = Raise (new_exc ValueError (lit "embedded null byte")) \/
   exists d,
     expand (machine denied) (lit "~a" ++ [0%N] ++ lit "b") = Return d /\
     ((lit "~a" ++ [0%N] ++ lit "b" = [] /\
       new_exc ValueError (lit "embedded null byte")
         = new_exc ValueError
             (lit "project_dir is required for hvigor builds")) \/
      (lit "~a" ++ [0%N] ++ lit "b" <> [] /\
       path_isdir (machine denied) d = false /\
       new_exc ValueError (lit "embedded null byte")
         = new_exc ValueError
             (lit "project_dir '" ++ (lit "~a" ++ [0%N] ++ lit "b")
                ++ lit "' does not exist or is not a directory")) \/
      (exists exc,
          lit "~a" ++ [0%N] ++ lit "b" <> [] /\
          path_isdir (machine denied) d = true /\
          subprocess_run (machine denied)
            (HvigorRunner.argv (lit "./hvigorw") [lit "clean"]) (Some d) None
            (final_env (machine denied) None) = Raise exc /\
          ((isinstance exc TimeoutExpired = true /\
            new_exc ValueError (lit "embedded null byte")
              = new_exc TypeError
                  (lit "sequence item 0: expected str instance, bytes found"))
           \/
           (isinstance exc TimeoutExpired = false /\
            isinstance exc FileNotFoundError = true /\
            new_exc ValueError (lit "embedded null byte")
              = new_exc_from RuntimeError
                  (lit "Unable to execute '" ++ lit "./hvigorw"
                     ++ lit "'. Ensure hvigorw exists in the project "
                     ++ lit "or set HVIGORW_PATH to the wrapper path.") exc) \/
           (isinstance exc TimeoutExpired = false /\
            isinstance exc FileNotFoundError = false /\
            new_exc ValueError (lit "embedded null byte") = exc))))).
Proof.
  assert (H : HvigorRunner.run (machine denied) (lit "./hvigorw")
                [lit "clean"] (lit "~a" ++ [0%N] ++ lit "b") None None 100
              = Raise (new_exc ValueError (lit "embedded null byte")))
    by (vm_compute; reflexivity).
  split; [exact H|].
  exact (hvigor_run_errors (machine denied) (lit "./hvigorw") [lit "clean"]
           (lit "~a" ++ [0%N] ++ lit "b") None None 100 _ H).
Defined.

Lemma run_timeout_with_text_returns_sentinel_witness :
  snd (HdcRunner.run
         (machine (times_out (Some (Str (text ["one"; "two"; "three"]))) None))
         (lit "hdc") [lit "shell"; lit "ls"] None None None 2)
    = Return (HdcRunner.mkHdcResult [lit "hdc"; lit "shell"; lit "ls"]
                (Str (text ["[Output truncated: showing last 2 of 3 lines]";
                            "two"; "three"]))
                (Str (lit "timeout waiting for hdc")) (-1) true).
Proof.
  destruct (run_timeout_with_text_returns_sentinel
              (machine (times_out (Some (Str (text ["one"; "two"; "three"])))
                                  None))
              (lit "hdc") [lit "shell"; lit "ls"] None (lit "~/proj") None None
              2 (lit "/home/u/proj")
              (Exc TimeoutExpired (lit "Command timed out") None
                   (Some (Str (text ["one"; "two"; "three"]))) None)
              (text ["one"; "two"; "three"]) (lit "timeout waiting for hdc")
              ltac:(vm_compute; reflexivity) ltac:(vm_compute; reflexivity))
    as [H _].
  etransitivity;
    [ apply H; vm_compute; reflexivity | vm_compute; reflexivity ].
Defined.

(** ** Results as dictionaries *)

Section AsDict.

Variable w : os.

Lemma hdc_as_dict_text (r : HdcRunner.HdcResult) out err :
  HdcRunner.stdout r = Str out -> HdcRunner.stderr r = Str err ->
  exists v,
    HdcRunner.as_dict r = Return v /\
    describes v (HdcRunner.command r) (HdcRunner.returncode r)
      (HdcRunner.timed_out r) /\
    entry v "stdout"
      = Some (VStr (HdcRunner._strip_ansi_codes (strip out))) /\
    entry v "stderr"
      = Some (VStr (HdcRunner._strip_ansi_codes (strip err))).
Proof.
  intros Hout Herr. unfold HdcRunner.as_dict. rewrite Hout, Herr.
  cbn [HdcRunner.stripped]. eexists. split; [reflexivity|].
  split; [|split; reflexivity].
  eexists. split; [reflexivity|]. repeat split; try reflexivity.
  eexists. split; [reflexivity|]. apply split_of_joined.
Qed.

(** [as_dict] returns a dictionary when [stdout] and [stderr] are both
    text, and raises [TypeError] when either is [bytes]; the dictionary
    describes the result, its [command_line] splits back into its
    [command], and its outputs are trimmed and freed of colour codes. *)
Theorem hdc_as_dict_needs_text (r : HdcRunner.HdcResult) :
  (forall out err,
      HdcRunner.stdout r = Str out -> HdcRunner.stderr r = Str err ->
      exists v,
        HdcRunner.as_dict r = Return v /\
        describes v (HdcRunner.command r) (HdcRunner.returncode r)
          (HdcRunner.timed_out r) /\
        entry v "stdout"
          = Some (VStr (HdcRunner._strip_ansi_codes (strip out))) /\
        entry v "stderr"
          = Some (VStr (HdcRunner._strip_ansi_codes (strip err)))) /\
  ((exists b, HdcRunner.stdout r = Bytes b) \/
   (exists b, HdcRunner.stderr r = Bytes b) ->
   HdcRunner.as_dict r =
     Raise (new_exc TypeError
              (lit "cannot use a string pattern on a bytes-like object"))).
Proof.
  split.
  - apply hdc_as_dict_text.
  - unfold HdcRunner.as_dict.
    intros [[b Hb]|[b Hb]]; rewrite Hb; cbn [HdcRunner.stripped].
    + reflexivity.
    + destruct (HdcRunner.stdout r); reflexivity.
Qed.

(** The same for the results of the build runner, whose dictionary also
    has the working directory. *)
Theorem hvigor_as_dict_needs_text (r : HvigorRunner.HvigorResult) :
  (forall out err,
      HvigorRunner.stdout r = Str out -> HvigorRunner.stderr r = Str err ->
      exists v,
        HvigorRunner.as_dict r = Return v /\
        describes v (HvigorRunner.command r) (HvigorRunner.returncode r)
          (HvigorRunner.timed_out r) /\
        entry v "cwd" = Some (VStr (HvigorRunner.cwd r)) /\
        entry v "stdout"
          = Some (VStr (HvigorRunner._strip_ansi_codes (strip out))) /\
        entry v "stderr"
          = Some (VStr (HvigorRunner._strip_ansi_codes (strip err)))) /\
  ((exists b, HvigorRunner.stdout r = Bytes b) \/
   (exists b, HvigorRunner.stderr r = Bytes b) ->
   HvigorRunner.as_dict r =
     Raise (new_exc TypeError
              (lit "cannot use a string pattern on a bytes-like object"))).
Proof.
  split.
  - intros out err Hout Herr. unfold HvigorRunner.as_dict. rewrite Hout, Herr.
    cbn [HvigorRunner.stripped]. eexists. split; [reflexivity|].
    split; [|split; [|split]; reflexivity].
    eexists. split; [reflexivity|]. repeat split; try reflexivity.
    eexists. split; [reflexivity|]. apply split_of_joined.
  - unfold HvigorRunner.as_dict.
    intros [[b Hb]|[b Hb]]; rewrite Hb; cbn [HvigorRunner.stripped].
    + reflexivity.
    + destruct (HvigorRunner.stdout r); reflexivity.
Qed.

(** A process that completes, with whatever exit code, comes back from
    [execute_hdc] as a dictionary, never as an exception: the exit code is
    the process's, [timed_out] is false, and [stdout] is the output cut
    to its last 500 lines, trimmed and freed of colour codes. *)
Theorem execute_hdc_completed exe arg args device timeout cp :
  subprocess_run w (HdcRunner.argv exe device (arg :: args)) None timeout
    (final_env w None) = Return cp ->
  exists v,
    snd (ServiceBootstrap.execute_hdc w exe (arg :: args) device timeout)
      = Return v /\
    describes v (HdcRunner.argv exe device (arg :: args)) (cp_returncode cp)
      false /\
    entry v "stdout"
      = Some (VStr (HdcRunner._strip_ansi_codes
                      (strip (HdcRunner._truncate_output (cp_stdout cp) 500)))) /\
    entry v "stderr"
      = Some (VStr (HdcRunner._strip_ansi_codes
                      (strip (HdcRunner._truncate_output (cp_stderr cp) 500)))).
Proof.
  intros Hrun. unfold ServiceBootstrap.execute_hdc.
  destruct (HdcRunner.run w exe (arg :: args) device timeout None 500)
    as [log outcome] eqn:E.
  assert (Ho : outcome =
               Return (HdcRunner.mkHdcResult
                         (HdcRunner.argv exe device (arg :: args))
                         (Str (HdcRunner._truncate_output (cp_stdout cp) 500))
                         (Str (HdcRunner._truncate_output (cp_stderr cp) 500))
                         (cp_returncode cp) false)).
  { apply (f_equal snd) in E. cbn [snd] in E. rewrite <- E.
    unfold HdcRunner.run. cbv zeta. rewrite Hrun. reflexivity. }
  rewrite Ho. cbn [snd].
  destruct (hdc_as_dict_text
              (HdcRunner.mkHdcResult
                 (HdcRunner.argv exe device (arg :: args))
                 (Str (HdcRunner._truncate_output (cp_stdout cp) 500))
                 (Str (HdcRunner._truncate_output (cp_stderr cp) 500))
                 (cp_returncode cp) false) _ _ eq_refl eq_refl)
    as (v & Hv & Hd & Hout & Herr).
  exists v. auto.
Qed.

End AsDict.

Lemma hdc_as_dict_needs_text_witness :
  HdcRunner.as_dict
    (HdcRunner.mkHdcResult [lit "hdc"; lit "shell"; lit "ls -la"]
       (Str (lit "  " ++ sgr (lit "32") ++ lit "OK" ++ sgr (lit "0") ++ [LF]))
       (Str []) 0 false)
    = Return (VDict
        [ (lit "command", VList [VStr (lit "hdc"); VStr (lit "shell");
                                 VStr (lit "ls -la")]);
          (lit "command_line", VStr (lit "hdc shell 'ls -la'"));
          (lit "stdout", VStr (lit "OK"));
          (lit "stderr", VStr []);
          (lit "returncode", VInt 0);
          (lit "timed_out", VBool false) ]) /\
  HdcRunner.as_dict
    (HdcRunner.mkHdcResult [lit "hdc"] (Bytes (written ["partial"])) (Str [])
       (-1) true)
    = Raise (new_exc TypeError
               (lit "cannot use a string pattern on a bytes-like object")).
Proof.
  split.
  - destruct (hdc_as_dict_needs_text
                (HdcRunner.mkHdcResult [lit "hdc"; lit "shell"; lit "ls -la"]
                   (Str (lit "  " ++ sgr (lit "32") ++ lit "OK"
                           ++ sgr (lit "0") ++ [LF]))
                   (Str []) 0 false)) as [H _].
    destruct (H _ _ eq_refl eq_refl) as (v & Hv & _).
    rewrite Hv. vm_compute in Hv. injection Hv as <-. vm_compute. reflexivity.
  - destruct (hdc_as_dict_needs_text
                (HdcRunner.mkHdcResult [lit "hdc"] (Bytes (written ["partial"]))
                   (Str []) (-1) true)) as [_ H].
    apply H. left. eexists. reflexivity.
Defined.

Lemma hvigor_as_dict_needs_text_witness :
  HvigorRunner.as_dict
    (HvigorRunner.mkHvigorResult [lit "./hvigorw"; lit "clean"]
       (lit "/home/u/proj") (Str []) (Bytes (written ["partial"])) (-1) true)
    = Raise (new_exc TypeError
               (lit "cannot use a string pattern on a bytes-like object")).
Proof.
  destruct (hvigor_as_dict_needs_text
              (HvigorRunner.mkHvigorResult [lit "./hvigorw"; lit "clean"]
                 (lit "/home/u/proj") (Str []) (Bytes (written ["partial"]))
                 (-1) true)) as [_ H].
  apply H. right. eexists. reflexivity.
Defined.

Lemma execute_hdc_completed_witness :
  exists v,
    snd (ServiceBootstrap.execute_hdc
           (machine (completes (lit "no such file") [] 3)) (lit "hdc")
           [lit "shell"; lit "cat x"] None None) = Return v /\
    entry v "returncode" = Some (VInt 3) /\
    entry v "timed_out" = Some (VBool false) /\
    entry v "stdout" = Some (VStr (lit "no such file")).
Proof.
  destruct (execute_hdc_completed
              (machine (completes (lit "no such file") [] 3)) (lit "hdc")
              (lit "shell") [lit "cat x"] None None
              (Completed (lit "no such file") [] 3) eq_refl)
    as (v & Hv & (d & -> & _ & Hrc & Hto & _) & Hout & _).
  exists (VDict d). split; [exact Hv|]. split; [exact Hrc|].
  split; [exact Hto|].
  etransitivity; [exact Hout | vm_compute; reflexivity].
Defined.

(** ** Splitting command strings *)

Section SplitArguments.

Import Shlex.

Ltac step_loop IH rest :=
  match goal with
  | |- context [read_token_loop ?a ?b ?c ?d rest] =>
      let H := fresh "H" in
      pose proof (IH a b c d) as H;
      destruct (read_token_loop a b c d rest) as [[? ?]|?];
      [ destruct H; split; [simpl; lia | intros _; simpl; lia] | exact H ]
  end.

(** One call of the loop never hands back more input than it got, hands
    back less when there was any, and raises nothing but the two lexer
    errors. *)
Lemma loop_result input : forall st quoted esc tok,
  match read_token_loop st quoted esc tok input with
  | Return (_, lex') =>
      (length (instream lex') <= length input)%nat /\
      (input <> [] -> (length (instream lex') < length input)%nat)
  | Raise e => lexer_error e
  end.
Proof.
  induction input as [|c rest IH]; intros st quoted esc tok.
  - destruct st; cbn [read_token_loop instream];
      try (split; [lia | intros H; contradiction]);
      [left | right]; reflexivity.
  - cbn [read_token_loop].
    destruct st;
      repeat match goal with
             | |- context [if ?b then _ else _] =>
                 lazymatch b with
                 | context [read_token_loop] => fail
                 | _ => destruct b
                 end
             end;
      cbn [instream];
      try (split; [simpl; lia | intros _; simpl; lia]);
      step_loop IH rest.
Qed.

Lemma read_token_progress lex tok lex' :
  read_token lex = Return (Some tok, lex') ->
  (length (instream lex') < length (instream lex))%nat.
Proof.
  destruct lex as [st input]. unfold read_token. cbn [state instream].
  destruct input as [|c rest].
  - destruct st; cbn; discriminate.
  - pose proof (loop_result (c :: rest) st false InWhitespace []) as H.
    intros E. rewrite E in H. destruct H as [_ H]. apply H. discriminate.
Qed.

Lemma read_token_error lex e : read_token lex = Raise e -> lexer_error e.
Proof.
  destruct lex as [st input]. unfold read_token. cbn [state instream].
  pose proof (loop_result input st false InWhitespace []) as H.
  intros E. rewrite E in H. exact H.
Qed.

(** With fuel beyond the length of the input the tokenizer always comes
    to an end, with the tokens or with a lexer error. *)
Lemma tokens_end fuel : forall lex,
  (length (instream lex) < fuel)%nat ->
  exists r,
    tokens fuel lex = Some r /\
    match r with Return _ => True | Raise e => lexer_error e end.
Proof.
  induction fuel as [|fuel IH]; intros lex Hf; [lia|].
  cbn [tokens].
  destruct (read_token lex) as [[[tok|] lex']|e] eqn:E.
  - apply read_token_progress in E.
    destruct (IH lex' ltac:(lia)) as (r & Hr & Hok).
    rewrite Hr. destruct r as [toks|e'].
    + eexists. split; [reflexivity | exact I].
    + eexists. split; [reflexivity | exact Hok].
  - eexists. split; [reflexivity | exact I].
  - eexists. split; [reflexivity|]. apply (read_token_error _ _ E).
Qed.

Lemma split_end s :
  exists r,
    split s = Some r /\
    match r with Return _ => True | Raise e => lexer_error e end.
Proof. apply tokens_end. cbn [instream]. lia. Qed.

(** [split_arguments] comes to an end on every string: it returns the
    tokens, or raises [InvalidArgumentsError] with the message of the
    lexer's [ValueError] ("No closing quotation" or "No escaped
    character"), raised from it. *)
Theorem split_arguments_ends_or_reports s :
  exists r,
    ServiceBootstrap.split_arguments s = Some r /\
    match r with
    | Return _ => True
    | Raise e =>
        exists cause,
          lexer_error cause /\
          e = new_exc_from ServiceBootstrap.InvalidArgumentsError
                (exc_str cause) cause
    end.
Proof.
  unfold ServiceBootstrap.split_arguments.
  destruct (split_end s) as (r & Hr & Hok). rewrite Hr.
  destruct r as [toks|cause].
  - eexists. split; [reflexivity | exact I].
  - assert (Hv : isinstance cause ValueError = true)
      by (destruct Hok as [-> | ->]; reflexivity).
    rewrite Hv. eexists. split; [reflexivity|].
    exists cause. split; [exact Hok | reflexivity].
Qed.

End SplitArguments.

(** ** The tools *)

Section ToolsProperties.

Import ServiceBootstrap.

Variable w : os.
Variable rt : runtime.

(** A command string with an unclosed quote or a dangling backslash never
    reaches hdc: [shell] raises [InvalidArgumentsError] without calling
    the runner, and the wrapped tool answers the failure payload with
    [error_type = "InvalidArgumentsError"] and the lexer's message. *)
Theorem shell_reports_bad_quoting exe command device timeout cause
    (func : tool) args kw :
  Shlex.split command = Some (Raise cause) ->
  Some (func args kw) = Tools.shell w exe command device timeout ->
  Tools.shell w exe command device timeout =
    Some ([], Raise (new_exc_from InvalidArgumentsError (exc_str cause) cause)) /\
  lexer_error cause /\
  snd (wrapped rt (lit "shell") func args kw) =
    Return (VDict [ (lit "success", VBool false);
                    (lit "error", VStr (exc_str cause));
                    (lit "error_type", VStr (lit "InvalidArgumentsError"));
                    (lit "tool", VStr (lit "shell"));
                    (lit "log_file", VStr (log_file_path rt));
                    (lit "traceback",
                     VStr (format_exc rt
                             (new_exc_from InvalidArgumentsError
                                (exc_str cause) cause))) ]).
Proof.
  intros Hsplit Hfunc.
  assert (Hc : lexer_error cause).
  { destruct (split_end command) as (r & Hr & Hok).
    rewrite Hsplit in Hr. injection Hr as <-. exact Hok. }
  assert (Hv : isinstance cause ValueError = true)
    by (destruct Hc as [-> | ->]; reflexivity).
  assert (Hs : Tools.shell w exe command device timeout =
               Some ([], Raise (new_exc_from InvalidArgumentsError
                                  (exc_str cause) cause))).
  { unfold Tools.shell, split_arguments. rewrite Hsplit, Hv. reflexivity. }
  split; [exact Hs|]. split; [exact Hc|].
  rewrite Hs in Hfunc. injection Hfunc as Hfunc.
  unfold wrapped. cbv zeta. rewrite Hfunc. reflexivity.
Qed.

(** A command string made by quoting each argument and joining them with
    spaces reaches [execute_hdc] as exactly ["shell"] followed by those
    arguments. *)
Theorem shell_passes_quoted_arguments exe (arguments : list str) device
    timeout :
  Tools.shell w exe (join (lit " ") (map Shlex.quote arguments)) device timeout =
    Some (execute_hdc w exe ([lit "shell"] ++ arguments) device timeout).
Proof.
  unfold Tools.shell, split_arguments. rewrite split_of_joined. reflexivity.
Qed.

Lemma bytes_truncation b bs m :
  1 <= m ->
  HdcRunner.call_truncate_output (Bytes (b :: bs)) m = Return (Bytes (b :: bs)) \/
  HdcRunner.call_truncate_output (Bytes (b :: bs)) m =
    Raise (new_exc TypeError
             (lit "sequence item 0: expected str instance, bytes found")).
Proof.
  intros Hm. cbn [HdcRunner.call_truncate_output HdcRunner._truncate_output_bytes].
  cbv zeta.
  destruct (len (bytes_splitlines (b :: bs)) <=? m) eqn:E; [left; reflexivity|].
  apply Z.leb_gt in E. right.
  destruct (slice_last (bytes_splitlines (b :: bs)) m ltac:(lia)) as [_ L].
  destruct (slice_from (- m) (bytes_splitlines (b :: bs))); [|reflexivity].
  unfold len in L. simpl in L. lia.
Qed.

(** When the process outlived the timeout and some of its standard output
    was captured as [bytes], [execute_hdc] raises [TypeError], in the
    truncation or else in [as_dict]; no dictionary comes back. *)
Theorem execute_hdc_timeout_with_bytes_raises exe arg args device timeout exc
    b bs :
  subprocess_run w (HdcRunner.argv exe device (arg :: args)) None timeout
    (final_env w None) = Raise exc ->
  isinstance exc TimeoutExpired = true ->
  exc_stdout exc = Some (Bytes (b :: bs)) ->
  exists e,
    snd (execute_hdc w exe (arg :: args) device timeout) = Raise e /\
    exc_class e = TypeError.
Proof.
  intros Hrun Hto Hout. unfold execute_hdc.
  destruct (HdcRunner.run w exe (arg :: args) device timeout None 500)
    as [log outcome] eqn:E.
  apply (f_equal snd) in E. cbn [snd] in *.
  unfold HdcRunner.run in E. cbv zeta in E. rewrite Hrun, Hto in E.
  cbn [snd] in E. rewrite Hout in E. cbn [or_default] in E.
  destruct (bytes_truncation b bs 500 ltac:(lia)) as [Hb|Hb]; rewrite Hb in E.
  - destruct (HdcRunner.call_truncate_output _ 500) as [o2|e2] eqn:E2.
    + subst outcome. eexists. split; reflexivity.
    + subst outcome. exists e2. split; [reflexivity|].
      rewrite (call_truncate_error _ _ _ E2). reflexivity.
  - subst outcome. eexists. split; reflexivity.
Qed.

End ToolsProperties.

Lemma shell_reports_bad_quoting_witness :
  Tools.shell (machine not_found) (lit "hdc") (lit "echo 'unfinished") None None
    = Some ([], Raise (new_exc_from ServiceBootstrap.InvalidArgumentsError
                         (lit "No closing quotation")
                         (new_exc ValueError (lit "No closing quotation")))).
Proof.
  destruct (shell_reports_bad_quoting (machine not_found) runtime0 (lit "hdc")
              (lit "echo 'unfinished") None None
              (new_exc ValueError (lit "No closing quotation"))
              (fun _ _ =>
                 ([], Raise (new_exc_from ServiceBootstrap.InvalidArgumentsError
                               (lit "No closing quotation")
                               (new_exc ValueError (lit "No closing quotation")))))
              [] []
              ltac:(vm_compute; reflexivity) ltac:(vm_compute; reflexivity))
    as [H _].
  exact H.
Defined.

Lemma execute_hdc_timeout_with_bytes_raises_witness :
  exists e,
    snd (ServiceBootstrap.execute_hdc
           (machine (times_out (Some (Bytes (written ["partial"]))) None))
           (lit "hdc") [lit "shell"; lit "top"] None None) = Raise e /\
    exc_class e = TypeError.
Proof.
  apply (execute_hdc_timeout_with_bytes_raises
           (machine (times_out (Some (Bytes (written ["partial"]))) None))
           (lit "hdc") (lit "shell") [lit "top"] None None
           (Exc TimeoutExpired (lit "Command timed out") None
              (Some (Bytes (written ["partial"]))) None)
           "p"%byte (tl (written ["partial"])));
    vm_compute; reflexivity.
Defined.

(** ** Assembling build arguments *)

Section Assemble.

Import Tools.

Variable lower : str -> str.
Variable valid_types_repr : str.

(** [str.lower] leaves the four lower-case type names as they are. *)
Hypothesis lower_valid : forall t, In t valid_types -> lower t = t.

Lemma str_eqb_eq a : forall b, str_eqb a b = true -> a = b.
Proof.
  induction a as [|x a IH]; intros [|y b]; simpl; try discriminate.
  - reflexivity.
  - intros H. apply andb_true_iff in H as [Hx Ha].
    apply N.eqb_eq in Hx. rewrite (IH _ Ha), Hx. reflexivity.
Qed.

Lemma member_in x l : member x l = true -> In x l.
Proof.
  unfold member. intros H. apply existsb_exists in H as (y & Hy & E).
  apply str_eqb_eq in E. subst. exact Hy.
Qed.

Lemma member_valid_cases t :
  member t valid_types = true ->
  t = lit "hap" \/ t = lit "hsp" \/ t = lit "har" \/ t = lit "app".
Proof.
  intros H. apply member_in in H. simpl in H.
  destruct H as [H|[H|[H|[H|[]]]]]; auto.
Qed.

(** The only exception [hvigor_assemble] raises before it runs hvigorw is
    the one for a [target_type] outside hap, hsp, har, app (compared as
    given, so "HAP" is refused); the later "Unsupported target_type" is
    never raised, and every valid type yields an argument list. *)
Theorem hvigor_assemble_refuses_unknown_types target_type module product
    build_mode no_daemon :
  (member target_type valid_types = false ->
   hvigor_assemble_args lower valid_types_repr target_type module product
     build_mode no_daemon =
     Raise (new_exc ServiceBootstrap.InvalidArgumentsError
              (lit "Invalid target_type '" ++ target_type
                 ++ lit "'. Must be one of: " ++ valid_types_repr))) /\
  (member target_type valid_types = true ->
   exists task mode rest,
     hvigor_assemble_args lower valid_types_repr target_type module product
       build_mode no_daemon = Return (task :: lit "--mode" :: mode :: rest)).
Proof.
  split; intros H; unfold hvigor_assemble_args; rewrite H; cbn [negb].
  - reflexivity.
  - pose proof (member_in _ _ H) as Hin. rewrite (lower_valid _ Hin).
    destruct (member_valid_cases _ H) as [ -> | [ -> | [ -> | -> ] ] ];
      destruct module as [[|c m]|]; destruct no_daemon;
      cbn; do 3 eexists; reflexivity.
Qed.

(** The argument list for each target type: hap gets the product and the
    build mode, hsp and har the product only (the build mode is ignored),
    app the build mode and the product (the module is ignored); the
    module flag comes first when a module is named, and [--no-daemon]
    last when asked for. *)
Theorem hvigor_assemble_argument_table module product build_mode no_daemon :
  let args t :=
    hvigor_assemble_args lower valid_types_repr (lit t) module product
      build_mode no_daemon in
  args "hap" =
    Return ([lit "assembleHap"; lit "--mode"; lit "module"]
              ++ module_flag module product
              ++ [lit "-p"; lit "product=" ++ product;
                  lit "-p"; lit "buildMode=" ++ build_mode]
              ++ daemon_flag no_daemon) /\
  args "hsp" =
    Return ([lit "assembleHsp"; lit "--mode"; lit "module"]
              ++ module_flag module product
              ++ [lit "-p"; lit "product=" ++ product]
              ++ daemon_flag no_daemon) /\
  args "har" =
    Return ([lit "assembleHar"; lit "--mode"; lit "module"]
              ++ module_flag module product
              ++ [lit "-p"; lit "product=" ++ product]
              ++ daemon_flag no_daemon) /\
  args "app" =
    Return ([lit "assembleApp"; lit "--mode"; lit "project";
             lit "-p"; lit "buildMode=" ++ build_mode;
             lit "-p"; lit "product=" ++ product]
              ++ daemon_flag no_daemon).
Proof.
  assert (L : forall t, In (lit t) valid_types -> lower (lit t) = lit t)
    by (intros t Ht; apply lower_valid, Ht).
  cbv zeta. unfold hvigor_assemble_args.
  repeat split.
  - rewrite (L "hap") by (simpl; auto).
    destruct module as [[|c m]|]; destruct no_daemon; reflexivity.
  - rewrite (L "hsp") by (simpl; auto).
    destruct module as [[|c m]|]; destruct no_daemon; reflexivity.
  - rewrite (L "har") by (simpl; auto).
    destruct module as [[|c m]|]; destruct no_daemon; reflexivity.
  - rewrite (L "app") by (simpl; auto).
    destruct module as [[|c m]|]; destruct no_daemon; reflexivity.
Qed.

End Assemble.

Lemma hvigor_assemble_refuses_unknown_types_witness :
  Tools.hvigor_assemble_args ascii_lower (lit "{'hap', 'hsp', 'har', 'app'}")
    (lit "HAP") (Some (lit "entry")) (lit "default") (lit "debug") true
    = Raise (new_exc ServiceBootstrap.InvalidArgumentsError
               (lit "Invalid target_type 'HAP'. Must be one of: {'hap', 'hsp', 'har', 'app'}")).
Proof.
  assert (L : forall t, In t Tools.valid_types -> ascii_lower t = t).
  { intros t [ <- | [ <- | [ <- | [ <- | [] ] ] ] ]; reflexivity. }
  destruct (hvigor_assemble_refuses_unknown_types ascii_lower
              (lit "{'hap', 'hsp', 'har', 'app'}") L (lit "HAP")
              (Some (lit "entry")) (lit "default") (lit "debug") true)
    as [H _].
  etransitivity; [apply H; reflexivity | vm_compute; reflexivity].
Defined.

Lemma hvigor_assemble_argument_table_witness :
  Tools.hvigor_assemble_args ascii_lower (lit "{'hap', 'hsp', 'har', 'app'}")
    (lit "hap") (Some (lit "entry")) (lit "default") (lit "release") true
    = Return [ lit "assembleHap"; lit "--mode"; lit "module";
               lit "-p"; lit "module=entry@default";
               lit "-p"; lit "product=default";
               lit "-p"; lit "buildMode=release"; lit "--no-daemon" ].
Proof.
  assert (L : forall t, In t Tools.valid_types -> ascii_lower t = t).
  { intros t [ <- | [ <- | [ <- | [ <- | [] ] ] ] ]; reflexivity. }
  destruct (hvigor_assemble_argument_table ascii_lower
              (lit "{'hap', 'hsp', 'har', 'app'}") L (Some (lit "entry"))
              (lit "default") (lit "release") true) as [H _].
  etransitivity; [exact H | vm_compute; reflexivity].
Defined.

(** ** Finding build outputs *)

Section BuildOutputs.

Import BuildHelper.

Variable fs : pathlib.

Lemma first_existing_found before p after :
  Forall (fun q => exists_ fs q = Return false) before ->
  exists_ fs p = Return true ->
  first_existing fs (before ++ p :: after) = Return (Some p).
Proof.
  induction 1 as [|q before Hq _ IH]; intros Hp; simpl.
  - rewrite Hp. reflexivity.
  - rewrite Hq. apply IH, Hp.
Qed.

Lemma first_existing_raises before p after e :
  Forall (fun q => exists_ fs q = Return false) before ->
  exists_ fs p = Raise e ->
  first_existing fs (before ++ p :: after) = Raise e.
Proof.
  induction 1 as [|q before Hq _ IH]; intros Hp; simpl.
  - rewrite Hp. reflexivity.
  - rewrite Hq. apply IH, Hp.
Qed.

Lemma first_existing_missing l :
  Forall (fun q => exists_ fs q = Return false) l ->
  first_existing fs l = Return None.
Proof.
  induction 1 as [|q l Hq _ IH]; simpl; [reflexivity|].
  rewrite Hq. exact IH.
Qed.

Lemma find_hap_output_scan project_dir module build_mode product :
  find_hap_output fs project_dir module build_mode product =
    match first_existing fs
            (standard_path fs project_dir module product
               :: alternative_paths fs project_dir module build_mode product)
    with
    | Raise e => Raise e
    | Return (Some p) =>
        _create_build_output fs p (Some module) (Some product)
          (Some build_mode)
    | Return None =>
        Return
          (mkBuildOutput (standard_path fs project_dir module product) false
             None None (Some module) (Some product) (Some build_mode))
    end.
Proof.
  unfold find_hap_output. cbv zeta. cbn [first_existing].
  destruct (exists_ fs (standard_path fs project_dir module product))
    as [[|]|e]; reflexivity.
Qed.


End BuildOutputs.


(** ** What the resolver and the wrapper guarantee *)

Section Guarantees.

Import ServiceBootstrap.

Variable w : os.
Variable rt : runtime.

Lemma first_file_some l c :
  HdcRunner.first_file w l = Some c -> In c l /\ path_isfile w c = true.
Proof.
  induction l as [|x l IH]; simpl; [discriminate|].
  destruct (path_isfile w x) eqn:Hx.
  - intros [= <-]. auto.
  - intros H. destruct (IH H). auto.
Qed.

(** Whenever a resolver answers, the expansion of its input returned, and
    the answer is either the expanded path itself or, for a directory, one
    of its probes that is a regular file: it never answers a probe that is
    not there. *)
Theorem resolved_probe_is_a_file path r :
  (HdcRunner._resolve_executable w path = Return r ->
   exists p,
     expand w path = Return p /\
     (r = p \/
      (stat w p = Some Directory /\
       In r (HdcRunner.candidates w p) /\
       stat w r = Some RegularFile))) /\
  (HvigorRunner._resolve_executable w path = Return r ->
   exists p,
     expand w path = Return p /\
     (r = p \/
      (stat w p = Some Directory /\
       In r (HvigorRunner.candidates w p) /\
       stat w r = Some RegularFile))).
Proof.
  assert (G : forall (probes : str -> list str) p,
             let r :=
               if negb (path_exists w p) then p
               else if path_isfile w p then p
               else match (if path_isdir w p
                           then HdcRunner.first_file w (probes p)
                           else None) with
                    | Some candidate => candidate
                    | None => p
                    end in
             r = p \/
             (stat w p = Some Directory /\ In r (probes p) /\
              stat w r = Some RegularFile)).
  { intros probes p. cbv zeta.
    destruct (negb (path_exists w p)); [left; reflexivity|].
    destruct (path_isfile w p); [left; reflexivity|].
    unfold path_isdir.
    destruct (stat w p) as [[| |]|] eqn:Hs; try (left; reflexivity).
    destruct (HdcRunner.first_file w (probes p)) as [c|] eqn:Hc;
      [|left; reflexivity].
    right. apply first_file_some in Hc as [Hin Hf].
    split; [reflexivity|]. split; [exact Hin|].
    unfold path_isfile in Hf.
    destruct (stat w c) as [[| |]|]; try discriminate. reflexivity. }
  split.
  - unfold HdcRunner._resolve_executable.
    destruct (expand w path) as [p|e]; [|discriminate].
    intros [= <-]. exists p. split; [reflexivity|].
    apply (G (HdcRunner.candidates w)).
  - unfold HvigorRunner._resolve_executable.
    destruct (expand w path) as [p|e]; [|discriminate].
    intros [= <-]. exists p. split; [reflexivity|].
    apply (G (HvigorRunner.candidates w)).
Qed.

Lemma log_arguments_no_warning request_id kw :
  existsb is_warning (log_arguments request_id kw) = false.
Proof.
  unfold log_arguments. destruct kw as [|kv kw]; [reflexivity|].
  cbn [existsb is_warning log_level orb].
  induction (kv :: kw) as [|[key value] l IH]; [reflexivity|].
  cbn [map existsb]. rewrite IH, orb_false_r.
  destruct value; try reflexivity.
  destruct (200 <? len s); reflexivity.
Qed.

(** When the operation returns a value, whatever it logged itself, the
    wrapper's records are the operation's records with the wrapper's own
    before and after them, and the wrapper's own records hold a [WARNING]
    exactly when the value counts as a failure: a dictionary with a false
    [success], whatever its [returncode]; or, without [success], a
    [returncode] other than zero.  Anything else, dictionary or not,
    counts as a success. *)
Theorem wrapped_warns_exactly_on_failure func_name (func : tool) args kw
    func_log value :
  func args kw = (func_log, Return value) ->
  exists before after,
    fst (wrapped rt func_name func args kw) = before ++ func_log ++ after /\
    let warns := existsb is_warning (before ++ after) in
    (forall d success,
        value = VDict d -> dict_get d (lit "success") = Some success ->
        warns = negb (truthy success)) /\
    (forall d returncode,
        value = VDict d -> dict_get d (lit "success") = None ->
        dict_get d (lit "returncode") = Some returncode ->
        warns = negb (eq_zero returncode)) /\
    (forall d,
        value = VDict d -> dict_get d (lit "success") = None ->
        dict_get d (lit "returncode") = None -> warns = false) /\
    ((forall d, value <> VDict d) -> warns = false).
Proof.
  intros Hf.
  assert (W : exists before after,
             fst (wrapped rt func_name func args kw)
               = before ++ func_log ++ after /\
             existsb is_warning (before ++ after)
               = negb (truthy (snd (classify rt value)))).
  { unfold wrapped. cbv zeta. rewrite Hf.
    destruct (classify rt value) as [status success]. cbn [fst snd].
    eexists. eexists. split; [reflexivity|].
    rewrite !existsb_app, log_arguments_no_warning.
    cbn [existsb is_warning log_level orb app].
    destruct (truthy success); cbn; reflexivity. }
  destruct W as (before & after & E & W).
  exists before, after. split; [exact E|]. cbv zeta.
  rewrite W. unfold classify. repeat split.
  - intros d success -> Hs. rewrite Hs. reflexivity.
  - intros d rc -> Hs Hr. rewrite Hs, Hr. cbn [snd truthy]. reflexivity.
  - intros d -> Hs Hr. rewrite Hs, Hr. reflexivity.
  - intros Hn. destruct value; try reflexivity. exfalso. apply (Hn d).
    reflexivity.
Qed.

End Guarantees.

Lemma wrapped_warns_exactly_on_failure_witness :
  exists before after,
    fst (ServiceBootstrap.wrapped runtime0 (lit "list_targets") warning_tool
           [] [])
      = before ++ [Log WARNING "device offline, retrying" []] ++ after /\
    existsb is_warning (before ++ after) = false.
Proof.
  destruct (wrapped_warns_exactly_on_failure runtime0 (lit "list_targets")
              warning_tool [] []
              [Log WARNING "device offline, retrying" []]
              (VStr (lit "ok")) eq_refl)
    as (before & after & E & _ & _ & _ & H).
  exists before, after. split; [exact E|].
  apply H. intros d. discriminate.
Defined.

Lemma resolved_probe_is_a_file_witness :
  HdcRunner._resolve_executable (machine not_found) (lit "~/sdk")
    = Return (lit "/home/u/sdk/bin/hdc.exe") /\
  stat (machine not_found) (lit "/home/u/sdk/bin/hdc.exe")
    = Some RegularFile.
Proof.
  assert (R : HdcRunner._resolve_executable (machine not_found) (lit "~/sdk")
              = Return (lit "/home/u/sdk/bin/hdc.exe"))
    by (vm_compute; reflexivity).
  split; [exact R|].
  destruct (resolved_probe_is_a_file (machine not_found) (lit "~/sdk")
              (lit "/home/u/sdk/bin/hdc.exe")) as [H _].
  destruct (H R) as (p & Hp & [E|(_ & _ & S)]).
  - vm_compute in Hp. injection Hp as <-. vm_compute in E. discriminate.
  - exact S.
Defined.
